(** * lambda-deploy: booking pipeline and Lambda dispatcher

    A shallow embedding of the Lambda handler of [src/index.js], of the
    booking orchestrator [createBooking] of the earlier [index.js]
    revision (unnamed part 011), and of the JavaScript [Date] arithmetic
    that the date repair relies on. *)

From Stdlib Require Import ZArith List Bool Lia String Ascii.
From Stdlib Require Import Sorting.Permutation Sorting.Sorted.
Import ListNotations.
Open Scope string_scope.
Open Scope list_scope.
Open Scope bool_scope.
Open Scope Z_scope.
#[local] Set Warnings "-register-all".

(** ** JavaScript [Date] in the Lambda runtime

    A [Date] is its time value: milliseconds since the epoch, an integer.
    The Lambda runtime runs with [TZ=UTC], so local time and UTC coincide and
    [getFullYear], [setFullYear], [new Date(y, m, d)] and friends all work on
    the proleptic Gregorian calendar of UTC.  Days are converted to civil
    dates through 400-year eras of 146097 days; months are 1-based in
    [civil_from_days] and 0-based in the [Date] API, as in JavaScript. *)
Module JsDate.

Definition msPerDay : Z := 86400000.

Definition leap (y : Z) : bool :=
  ((y mod 4 =? 0) && negb (y mod 100 =? 0)) || (y mod 400 =? 0).

Definition days_in_month (y m : Z) : Z :=
  if m =? 2 then (if leap y then 29 else 28)
  else if (m =? 4) || (m =? 6) || (m =? 9) || (m =? 11) then 30 else 31.

(** Length of month [mp] of a March-based year [yoe] of an era (March is
    [mp = 0], February of the following civil year is [mp = 11]). *)
Definition dimMar (yoe mp : Z) : Z :=
  if mp =? 11 then (if leap (yoe + 1) then 29 else 28)
  else if (mp =? 1) || (mp =? 3) || (mp =? 6) || (mp =? 8) then 30 else 31.

(** Day of era of day [d] of month [mp] of year [yoe] of the era. *)
Definition doe_of (yoe mp d : Z) : Z :=
  yoe * 365 + yoe / 4 - yoe / 100 + (153 * mp + 2) / 5 + d - 1.

(** Inverse of [doe_of] on one era. *)
Definition split_doe (doe : Z) : Z * Z * Z :=
  let yoe := (doe - doe / 1460 + doe / 36524 - doe / 146096) / 365 in
  let doy := doe - (365 * yoe + yoe / 4 - yoe / 100) in
  let mp := (5 * doy + 2) / 153 in
  (yoe, mp, doy - (153 * mp + 2) / 5 + 1).

Definition days_from_civil (y m d : Z) : Z :=
  let y' := if m <=? 2 then y - 1 else y in
  let era := y' / 400 in
  let yoe := y' - era * 400 in
  let mp := (m + 9) mod 12 in
  era * 146097 + doe_of yoe mp d - 719468.

Definition civil_from_days (z : Z) : Z * Z * Z :=
  let z' := z + 719468 in
  let era := z' / 146097 in
  let doe := z' mod 146097 in
  let '(yoe, mp, d) := split_doe doe in
  let m := if mp <? 10 then mp + 3 else mp - 9 in
  let y := yoe + era * 400 in
  (if m <=? 2 then y + 1 else y, m, d).

(** ECMAScript [Day], [TimeWithinDay], [MakeDay], [MakeDate]. *)
Definition Day (t : Z) : Z := t / msPerDay.
Definition TimeWithinDay (t : Z) : Z := t mod msPerDay.
Definition MakeDay (y m0 dt : Z) : Z :=
  days_from_civil (y + m0 / 12) (m0 mod 12 + 1) 1 + dt - 1.
Definition MakeDate (day tod : Z) : Z := day * msPerDay + tod.
Definition MakeTime (h mi s ms : Z) : Z := h * 3600000 + mi * 60000 + s * 1000 + ms.

Definition getFullYear (t : Z) : Z := let '(y, _, _) := civil_from_days (Day t) in y.
Definition getMonth (t : Z) : Z := let '(_, m, _) := civil_from_days (Day t) in m - 1.
Definition getDate (t : Z) : Z := let '(_, _, d) := civil_from_days (Day t) in d.
Definition getHours (t : Z) : Z := TimeWithinDay t / 3600000.
Definition getMinutes (t : Z) : Z := (TimeWithinDay t / 60000) mod 60.

(** [d.setFullYear(y)]: keeps month, date and time within the day. *)
Definition setFullYear (t y : Z) : Z :=
  MakeDate (MakeDay y (getMonth t) (getDate t)) (TimeWithinDay t).
(** [d.setDate(dt)] *)
Definition setDate (t dt : Z) : Z :=
  MakeDate (MakeDay (getFullYear t) (getMonth t) dt) (TimeWithinDay t).
(** [d.setHours(h, mi, s, ms)] *)
Definition setHours (t h mi s ms : Z) : Z :=
  MakeDate (Day t) (MakeTime h mi s ms).
(** [new Date(y, m0, dt)] *)
Definition newDate (y m0 dt : Z) : Z := MakeDate (MakeDay y m0 dt) 0.
(** [d.toISOString().split('T')[0]], as the triple (year, month, day). *)
Definition isoDate (t : Z) : Z * Z * Z := civil_from_days (Day t).

(** Bounded exhaustive checks over an integer range. *)
Fixpoint all_from (fuel : nat) (i : Z) (f : Z -> bool) : bool :=
  match fuel with
  | O => true
  | S k => f i && all_from k (i + 1) f
  end.
Definition all_below (n : Z) (f : Z -> bool) : bool := all_from (Z.to_nat n) 0 f.

(** One cell of the round-trip check: day [d0 + 1] of month [mp] of year
    [yoe] of an era, when the month has it, lies in the era and is split back
    into the same triple. *)
Definition roundtrip_cell (yoe mp d0 : Z) : bool :=
  let d := d0 + 1 in
  if d <=? dimMar yoe mp then
    let doe := doe_of yoe mp d in
    (0 <=? doe) && (doe <? 146097) &&
    (let '(a, b, c) := split_doe doe in (a =? yoe) && (b =? mp) && (c =? d))
  else true.

(** One cell of the split check: day [doe] of an era splits into a valid
    triple that [doe_of] maps back to [doe]. *)
Definition split_cell (doe : Z) : bool :=
  let '(yoe, mp, d) := split_doe doe in
  (0 <=? yoe) && (yoe <? 400) && (0 <=? mp) && (mp <? 12) && (1 <=? d)
  && (d <=? dimMar yoe mp) && (doe_of yoe mp d =? doe).

End JsDate.

(** ** JavaScript values

    JSON-like values; an object is an association list in insertion order,
    as [Object.keys] and object spread see it. *)
Inductive jsval : Type :=
| JUndefined
| JNull
| JBool (b : bool)
| JNum (n : Z)
| JStr (s : string)
| JArr (l : list jsval)
| JObj (o : list (string * jsval)).

Definition obj := list (string * jsval).

(** [o[k]], [undefined] when absent. *)
Fixpoint get (o : obj) (k : string) : jsval :=
  match o with
  | [] => JUndefined
  | (k', v) :: o' => if String.eqb k k' then v else get o' k
  end.

(** [v[k]] on a value that is an object, [undefined] otherwise. *)
Definition jget (v : jsval) (k : string) : jsval :=
  match v with JObj o => get o k | _ => JUndefined end.

(** [o[k] = v]: overwrite in place, or append a new key. *)
Fixpoint set (o : obj) (k : string) (v : jsval) : obj :=
  match o with
  | [] => [(k, v)]
  | (k', v') :: o' => if String.eqb k k' then (k', v) :: o' else (k', v') :: set o' k v
  end.

Definition has_key (o : obj) (k : string) : bool :=
  existsb (fun kv => String.eqb (fst kv) k) o.

(** JavaScript truthiness ([NaN] is not among the modelled numbers). *)
Definition truthy (v : jsval) : bool :=
  match v with
  | JUndefined | JNull => false
  | JBool b => b
  | JNum n => negb (n =? 0)
  | JStr s => negb (String.eqb s EmptyString)
  | JArr _ | JObj _ => true
  end.

(** [a || b] on values. *)
Definition js_or (a b : jsval) : jsval := if truthy a then a else b.

Definition str_truthy (s : string) : bool := negb (String.eqb s EmptyString).

(** [s.includes(p)] *)
Fixpoint includes (s p : string) : bool :=
  String.prefix p s ||
  match s with
  | EmptyString => false
  | String _ s' => includes s' p
  end.

(** Thrown errors: the fields of [Error] and of the classes of
    [utils/errorHandler.js] that the code reads. *)
Record js_error := mkError {
  err_name : string;
  err_message : string;
  err_statusCode : option Z;
  err_field : option string;
  err_resource : option string;
  err_source : option string;
  err_details_message : option string
}.

(** [new ValidationError(message, field)] *)
Definition ValidationError (message field : string) : js_error :=
  mkError "ValidationError" message (Some 400) (Some field) None None None.

Record response := mkResponse {
  statusCode : Z;
  headers : list (string * string);
  body : jsval
}.

(** [handleError] of [utils/errorHandler.js]; a body is kept as the value it
    serialises. *)
Definition handleError (e : js_error) : response :=
  let base := [("success", JBool false);
               ("error", JStr (if str_truthy (err_message e) then err_message e
                               else "An unknown error occurred"));
               ("type", JStr (if str_truthy (err_name e) then err_name e else "Error"))] in
  let with_field :=
    match err_field e with
    | Some f => if str_truthy f then base ++ [("field", JStr f)] else base
    | None => base
    end in
  let with_resource :=
    match err_resource e with
    | Some r => if str_truthy r then with_field ++ [("resource", JStr r)] else with_field
    | None => with_field
    end in
  mkResponse
    (match err_statusCode e with Some s => if s =? 0 then 500 else s | None => 500 end)
    [("Content-Type", "application/json"); ("Access-Control-Allow-Origin", "*")]
    (JObj with_resource).

(** A computation that may throw, as an outcome. *)
Definition outcome (A : Type) := (A + js_error)%type.

(** ** Scheduling-provider helpers of [services/calApi.js]

    [formatAvailabilityForVoice], [isTimeSlotAvailable] and
    [findAlternativeTimeSlots] are called by [createBooking] but are not part
    of the [calApi.js] files present; they follow the spec.  A slot is
    represented by its time value. *)
Module CalApi.

(** Modelled from the spec: [calApi.formatAvailabilityForVoice] (absent).
    The availability query yields the available instants, ordered as the
    provider returns them; formatting for voice keeps each slot's time. *)
Definition formatAvailabilityForVoice (slots : list Z) : list Z := slots.

(** Modelled from the spec: [calApi.isTimeSlotAvailable] (absent).
    "Determine whether the exact requested start time appears in the
    returned availability set (exact timestamp match)". *)
Definition isTimeSlotAvailable (slots : list Z) (t : Z) : bool :=
  existsb (Z.eqb t) slots.

(** Distance of a slot to the requested instant [t0]. *)
Definition dist (t0 t : Z) : Z := Z.abs (t - t0).

(** Ranking order: nearer first, and the earlier timestamp first on equal
    distances. *)
Definition rank_leb (t0 a b : Z) : bool :=
  (dist t0 a <? dist t0 b) || ((dist t0 a =? dist t0 b) && (a <=? b)).

Fixpoint rank_insert (t0 x : Z) (l : list Z) : list Z :=
  match l with
  | [] => [x]
  | y :: l' => if rank_leb t0 x y then x :: y :: l' else y :: rank_insert t0 x l'
  end.

Fixpoint rank (t0 : Z) (l : list Z) : list Z :=
  match l with
  | [] => []
  | x :: l' => rank_insert t0 x (rank t0 l')
  end.

(** The ranking order as a relation. *)
Definition rank_le (t0 a b : Z) : Prop :=
  dist t0 a < dist t0 b \/ (dist t0 a = dist t0 b /\ a <= b).

(** Modelled from the spec: [calApi.findAlternativeTimeSlots] (absent).
    "sort [S] by [|slot.time - t0|] ascending; for equal distances, the
    earlier timestamp sorts first; truncate to [N]". *)
Definition findAlternativeTimeSlots (slots : list Z) (t0 : Z) (n : nat) : list Z :=
  firstn n (rank t0 slots).

End CalApi.

(** ** [createBooking] of the earlier [index.js] revision (unnamed part 011)

    The legacy call shape [{name, email, startTime, endTime, timeZone, ...}].
    Times are the time values of the ISO strings the caller sends ([None] for
    an absent or empty string); a string is identified with the instant it
    denotes, and strings that do not parse as dates are not modelled. *)
Module Booking.
Import JsDate CalApi.

Record booking_params := mkParams {
  bp_name : string;
  bp_email : string;
  bp_startTime : option Z;
  bp_endTime : option Z;
  bp_timeZone : string;
  bp_eventTypeId : string
}.

(** What [createBooking] sends to [calApi.createBooking]. *)
Record booking_details := mkDetails {
  bd_eventTypeId : string;
  bd_name : string;
  bd_email : string;
  bd_startTime : Z;
  bd_endTime : option Z;
  bd_timeZone : string
}.

(** Calls to the scheduling provider, in the order they are made. *)
Inductive cal_call :=
| QAvailability (eventTypeId : string) (startDate endDate : Z * Z * Z) (timeZone : string)
| QCreateBooking (details : booking_details).

(** The provider's answers: [getAvailability] (already passed through
    [formatAvailabilityForVoice]) and [createBooking]. *)
Record cal_provider := mkProvider {
  cal_getAvailability : string -> Z * Z * Z -> Z * Z * Z -> string -> outcome (list Z);
  cal_createBooking : booking_details -> outcome jsval
}.

(** The DateRepair step: [Some adjustedDate] when the start time is in a
    past year or at or before [now]. *)
Definition repair_date (now bookingDate : Z) : option Z :=
  let isPastYear := getFullYear bookingDate <? getFullYear now in
  let isPastDate := bookingDate <=? now in
  if isPastYear || isPastDate then
    Some (if isPastYear then
            let adjustedDate := setFullYear bookingDate (getFullYear now) in
            if adjustedDate <=? now
            then setFullYear adjustedDate (getFullYear now + 1)
            else adjustedDate
          else
            let adjustedDate := setDate now (getDate now + 1) in
            setHours adjustedDate (getHours bookingDate) (getMinutes bookingDate) 0 0)
  else None.

(** The updates of [params.startTime] and [params.endTime] after a repair;
    [bookingDate] has already been reassigned to [adjustedDate] when the
    end-time difference is taken. *)
Definition adjust_params (p : booking_params) (adjustedDate : Z) : booking_params :=
  let bookingDate := adjustedDate in
  let endTime' :=
    match bp_endTime p with
    | Some originalEndTime =>
        let timeDiff := originalEndTime - bookingDate in
        Some (adjustedDate + timeDiff)
    | None => None
    end in
  mkParams (bp_name p) (bp_email p) (Some adjustedDate) endTime' (bp_timeZone p)
           (bp_eventTypeId p).

Definition slot_json (t : Z) : jsval := JObj [("time", JNum t)].

Definition conflict_response (alternativeSlots : list Z) : response :=
  mkResponse 409 []
    (JObj [("success", JBool false);
           ("error", JStr "Requested time slot is not available");
           ("alternativeSlots", JArr (map slot_json alternativeSlots));
           ("message", JStr "The requested time slot is not available. Please choose from the alternative slots provided.")]).

Definition opt_time (o : option Z) : jsval :=
  match o with Some t => JNum t | None => JUndefined end.

(** The availability window around the requested date: [back] days before
    and [fwd] days after, as [YYYY-MM-DD] dates. *)
Definition window (requestedDate back fwd : Z) : (Z * Z * Z) * (Z * Z * Z) :=
  (isoDate (newDate (getFullYear requestedDate) (getMonth requestedDate) (getDate requestedDate - back)),
   isoDate (newDate (getFullYear requestedDate) (getMonth requestedDate) (getDate requestedDate + fwd))).

Definition already_booked_msg : string :=
  "already has booking at this time or is not available".

Definition is_cal_conflict (e : js_error) : bool :=
  match err_source e, err_statusCode e, err_details_message e with
  | Some src, Some st, Some msg =>
      String.eqb src "cal" && (st =? 400) && includes msg already_booked_msg
  | _, _, _ => false
  end.

(** [createBooking(params)]: the outcome, the provider calls in order, and
    [params] as the function leaves it (the caller's object is mutated). *)
Definition createBooking (cfgEventTypeId : string) (P : cal_provider)
    (now : Z) (p : booking_params) : outcome response * list cal_call * booking_params :=
  let '(name, email, timeZone) := (bp_name p, bp_email p, bp_timeZone p) in
  match bp_startTime p with
  | None => (inr (ValidationError "Missing required parameters" "params"), [], p)
  | Some startTime =>
    if negb (str_truthy name && str_truthy email && str_truthy timeZone) then
      (inr (ValidationError "Missing required parameters" "params"), [], p)
    else
    let endTime := bp_endTime p in
    let params :=
      match repair_date now startTime with
      | Some adjustedDate => adjust_params p adjustedDate
      | None => p
      end in
    let eventTypeId :=
      if str_truthy (bp_eventTypeId params) then bp_eventTypeId params
      else cfgEventTypeId in
    let catch (e : js_error) (calls : list cal_call) :=
      if is_cal_conflict e then
        let '(startDate, endDate) := window startTime 3 7 in
        let calls' := calls ++ [QAvailability eventTypeId startDate endDate timeZone] in
        match cal_getAvailability P eventTypeId startDate endDate timeZone with
        | inl availability =>
            let formattedAvailability := formatAvailabilityForVoice availability in
            (inl (conflict_response
                    (findAlternativeTimeSlots formattedAvailability startTime 5)),
             calls', params)
        | inr _ => (inr e, calls', params)
        end
      else (inr e, calls, params) in
    let '(startDate, endDate) := window startTime 1 1 in
    let calls := [QAvailability eventTypeId startDate endDate timeZone] in
    match cal_getAvailability P eventTypeId startDate endDate timeZone with
    | inr e => catch e calls
    | inl availability =>
      let formattedAvailability := formatAvailabilityForVoice availability in
      if negb (isTimeSlotAvailable formattedAvailability startTime) then
        (inl (conflict_response
                (findAlternativeTimeSlots formattedAvailability startTime 5)),
         calls, params)
      else
        let details := mkDetails eventTypeId name email startTime endTime timeZone in
        let calls := calls ++ [QCreateBooking details] in
        match cal_createBooking P details with
        | inr e => catch e calls
        | inl booking =>
          let dateAdjusted :=
            match bp_startTime params with
            | Some t => negb (t =? startTime)
            | None => true
            end in
          (inl (mkResponse 200 []
                  (JObj [("success", JBool true);
                         ("booking", booking);
                         ("message", JStr (if dateAdjusted
                            (* the original also spells out both dates *)
                            then "Booking created successfully. Note: your requested date was in the past."
                            else "Booking created successfully"));
                         ("dateAdjusted", JBool dateAdjusted);
                         ("originalDate", JNum startTime);
                         ("adjustedDate", opt_time (bp_startTime params))])),
           calls, params)
        end
      end
  end.

End Booking.

(** ** The dispatcher of [src/index.js]

    The process-wide [config] object is part of the state, together with the
    provider calls made so far; the code threads both through [await]s, so
    the handlers live in a state and error monad. *)
Module Dispatch.

Record config := mkConfig {
  cal_apiKey : jsval;
  cal_eventTypeId : jsval;
  cal_username : jsval
}.

(** Calls to external collaborators, each with the arguments it is given. *)
Inductive provider_call :=
| CGetSlots (apiParams : obj)
| CGetAvailabilityV1 (id : Z) (apiKey : jsval)
| CGetEventTypeAvailabilityV1 (apiParams : obj)
| COperation (name : string) (params : jsval).

Record world := mkWorld {
  w_config : config;
  w_calls : list provider_call
}.

Definition M (A : Type) := world -> outcome A * world.

Definition ret {A} (a : A) : M A := fun w => (inl a, w).
Definition bind {A B} (m : M A) (f : A -> M B) : M B :=
  fun w => match m w with
           | (inl a, w') => f a w'
           | (inr e, w') => (inr e, w')
           end.
Definition throw {A} (e : js_error) : M A := fun w => (inr e, w).
(** [try { m } catch (e) { h(e) }] *)
Definition try_catch {A} (m : M A) (h : js_error -> M A) : M A :=
  fun w => match m w with
           | (inl a, w') => (inl a, w')
           | (inr e, w') => h e w'
           end.
Definition get_config : M config := fun w => (inl (w_config w), w).
Definition put_config (c : config) : M unit :=
  fun w => (inl tt, mkWorld c (w_calls w)).

Notation "x <- m ;; k" := (bind m (fun x => k))
  (at level 61, m at next level, right associativity).
Notation "m ;;; k" := (bind m (fun _ => k)) (at level 61, right associativity).

Definition TypeError (k : string) : js_error :=
  mkError "TypeError" ("Cannot read properties of undefined (reading '" ++ k ++ "')")%string
          None None None None None.

(** [v.k]: throws on [undefined] and [null]. *)
Definition prop (v : jsval) (k : string) : M jsval :=
  match v with
  | JUndefined | JNull => throw (TypeError k)
  | JObj o => ret (get o k)
  | _ => ret JUndefined
  end.

(** [v?.k] *)
Definition oprop (v : jsval) (k : string) : jsval :=
  match v with
  | JObj o => get o k
  | _ => JUndefined
  end.

(** [`${v}`] for the values that reach a template string here. *)
Definition js_to_string (v : jsval) : string :=
  match v with
  | JUndefined => "undefined"
  | JNull => "null"
  | JBool true => "true"
  | JBool false => "false"
  | JStr s => s
  | JNum _ => "[number]"
  | JArr _ => "[array]"
  | JObj _ => "[object Object]"
  end.

(** [{...v}]: the own enumerable keys of a parsed JSON object. *)
Definition spread (v : jsval) : obj :=
  match v with JObj o => o | _ => [] end.

(** [parseInt(v, 10)] on a leading run of decimal digits. *)
Fixpoint digits_prefix (s : string) (acc : option Z) : option Z :=
  match s with
  | EmptyString => acc
  | String c s' =>
      let n := Z.of_nat (nat_of_ascii c) - 48 in
      if (0 <=? n) && (n <=? 9)
      then digits_prefix s' (Some (match acc with Some a => a * 10 + n | None => n end))
      else acc
  end.
Definition parseInt10 (v : jsval) : option Z :=
  match v with
  | JNum n => Some n
  | JStr s => digits_prefix s None
  | _ => None
  end.

Definition cors_headers : list (string * string) :=
  [("Access-Control-Allow-Origin", "*");
   ("Access-Control-Allow-Methods", "GET, POST, OPTIONS");
   ("Access-Control-Allow-Headers", "Content-Type")].

Fixpoint set_header (h : list (string * string)) (k v : string) : list (string * string) :=
  match h with
  | [] => [(k, v)]
  | (k', v') :: h' => if String.eqb k k' then (k', v) :: h' else (k', v') :: set_header h' k v
  end.

Definition add_cors (r : response) : response :=
  mkResponse (statusCode r)
    (set_header (set_header (set_header (headers r)
        "Access-Control-Allow-Origin" "*")
        "Access-Control-Allow-Methods" "GET, POST, OPTIONS")
        "Access-Control-Allow-Headers" "Content-Type")
    (body r).

Definition VALID_ACTIONS : list string :=
  ["createBooking"; "getAvailableSlots"; "rescheduleBooking"; "cancelBooking";
   "getBookingDetails"; "checkAvailability"; "findAvailability";
   "handleVapiWebhook"; "initializeAssistant"; "trialStarted"].

(** The [knownActions] list of the path rule of [handler]. *)
Definition knownActions : list string :=
  ["createBooking"; "getAvailableSlots"; "rescheduleBooking";
   "cancelBooking"; "getBookingDetails"; "checkAvailability"].

Definition str_in (s : string) (l : list string) : bool := existsb (String.eqb s) l.

(** [path.split('/').filter(Boolean)] *)
Fixpoint split_slash_aux (s : string) (cur : string) : list string :=
  match s with
  | EmptyString => [cur]
  | String c s' =>
      if Ascii.eqb c "/"%char then cur :: split_slash_aux s' EmptyString
      else split_slash_aux s' (cur ++ String c EmptyString)%string
  end.
Definition path_parts (path : string) : list string :=
  filter str_truthy (split_slash_aux path EmptyString).

Definition last_path_part (path : option string) : string :=
  match path with
  | Some p => if str_truthy p then last (path_parts p) EmptyString else EmptyString
  | None => EmptyString
  end.

(** An inbound Lambda event.  [event.body] is either the raw JSON text or an
    already decoded value. *)
Inductive raw_body :=
| RawString (s : string)
| RawValue (v : jsval).

Record event := mkEvent {
  httpMethod : option string;
  path : option string;
  queryStringParameters : option (list (string * string));
  ev_body : option raw_body
}.

Fixpoint qget (q : list (string * string)) (k : string) : option string :=
  match q with
  | [] => None
  | (k', v) :: q' => if String.eqb k k' then Some v else qget q' k
  end.

Definition query_of (ev : event) : list (string * string) :=
  match queryStringParameters ev with Some q => q | None => [] end.

(** Strict equality [!==] negated, on the primitive values a key can be;
    the config holds a string, so two objects are never compared here. *)
Definition js_strict_eqb (a b : jsval) : bool :=
  match a, b with
  | JUndefined, JUndefined | JNull, JNull => true
  | JBool x, JBool y => Bool.eqb x y
  | JNum x, JNum y => x =? y
  | JStr x, JStr y => String.eqb x y
  | _, _ => false
  end.

Definition options_response : response :=
  mkResponse 200
    [("Content-Type", "application/json");
     ("Access-Control-Allow-Origin", "*");
     ("Access-Control-Allow-Methods", "GET, POST, OPTIONS");
     ("Access-Control-Allow-Headers", "Content-Type")]
    (JObj [("success", JBool true)]).

(** The [function_response] envelope of the voice platform. *)
Definition envelope (name : jsval) (payload : string * jsval) : jsval :=
  JObj [("response",
         JObj [("type", JStr "function_response");
               ("function_response", JObj [("name", name); payload])])].

Section Handlers.

(** [JSON.parse]: [None] when it throws a [SyntaxError]. *)
Variable JSON_parse : string -> option jsval.
(** The answers of the external collaborators. *)
Variable provider : provider_call -> outcome jsval.
(** The actions whose bodies no property below depends on
    ([initializeAssistant], [handleTrialStarted], [handleVapiWebhook],
    [createBooking], [rescheduleBooking], [cancelBooking],
    [getBookingDetails]): any effect on the world, any result or error. *)
Variable other_action : string -> jsval -> M response.
(** [new Date().toISOString()] and [start + 14 days] of [getAvailableSlots]. *)
Variable now_iso : jsval.
Variable plus_14_days : jsval -> jsval.

(** An awaited provider call: recorded, then answered. *)
Definition call (c : provider_call) : M jsval :=
  fun w => (provider c, mkWorld (w_config w) (w_calls w ++ [c])).

Definition set_apiKey (c : config) (k : jsval) : config :=
  mkConfig k (cal_eventTypeId c) (cal_username c).

(** [checkAvailability] (src/index.js) *)
Definition checkAvailability (params : jsval) : M response :=
  try_catch (
    startDate <- prop params "startDate" ;;
    if negb (truthy startDate) then throw (ValidationError "Start date is required" "startDate") else
    endDate <- prop params "endDate" ;;
    if negb (truthy endDate) then throw (ValidationError "End date is required" "endDate") else
    c <- get_config ;;
    username <- prop params "username" ;;
    eventTypeId <- prop params "eventTypeId" ;;
    apiKey <- prop params "apiKey" ;;
    let apiParams := [("startTime", startDate); ("endTime", endDate);
                      ("username", js_or username (cal_username c));
                      ("eventTypeId", js_or eventTypeId (cal_eventTypeId c));
                      ("apiKey", js_or apiKey (cal_apiKey c))] in
    availabilityData <- call (CGetEventTypeAvailabilityV1 apiParams) ;;
    ret (mkResponse 200 []
           (JObj [("success", JBool true); ("availability", availabilityData)])))
    (fun e => ret (handleError e)).

(** [findAvailability] (src/index.js), with the guard of
    [calApi.getAvailabilityV1] on a falsy id. *)
Definition findAvailability (params : jsval) : M response :=
  try_catch (
    id <- prop params "id" ;;
    if negb (truthy id) then throw (ValidationError "Availability ID is required" "id") else
    match parseInt10 id with
    | None => throw (ValidationError "Invalid availability ID" "id")
    | Some availabilityId =>
      apiKey <- prop params "apiKey" ;;
      (if truthy apiKey
       then c <- get_config ;; put_config (set_apiKey c apiKey)
       else ret tt) ;;;
      if availabilityId =? 0 then throw (ValidationError "Availability ID is required" "id") else
      c <- get_config ;;
      availability <- call (CGetAvailabilityV1 availabilityId (cal_apiKey c)) ;;
      ret (mkResponse 200 []
             (JObj [("success", JBool true); ("availability", availability)]))
    end)
    (fun e => ret (handleError e)).

(** [getAvailableSlots] (src/index.js) *)
Definition getAvailableSlots (params : jsval) : M response :=
  try_catch (
    st <- prop params "startTime" ;; sd <- prop params "startDate" ;; s0 <- prop params "start" ;;
    et <- prop params "endTime" ;; ed <- prop params "endDate" ;; e0 <- prop params "end" ;;
    let startTime := js_or st (js_or sd s0) in
    let startTime := if truthy startTime then startTime else now_iso in
    let endTime := js_or et (js_or ed e0) in
    let endTime := if truthy endTime then endTime else plus_14_days startTime in
    c <- get_config ;;
    k1 <- prop params "apiKey" ;; k2 <- prop params "api_key" ;;
    let apiKey := js_or k1 (js_or k2 (cal_apiKey c)) in
    (if truthy apiKey && negb (js_strict_eqb apiKey (cal_apiKey c))
     then put_config (set_apiKey c apiKey)
     else ret tt) ;;;
    c <- get_config ;;
    i1 <- prop params "eventTypeId" ;; i2 <- prop params "event_type_id" ;;
    let eventTypeId := js_or i1 (js_or i2 (cal_eventTypeId c)) in
    if negb (truthy eventTypeId)
    then throw (ValidationError "Event type ID is required" "eventTypeId") else
    let apiParams := [("startTime", startTime); ("endTime", endTime);
                      ("eventTypeId", eventTypeId); ("apiKey", cal_apiKey c)] in
    slots <- call (CGetSlots apiParams) ;;
    ret (mkResponse 200
           (("Content-Type", "application/json") :: cors_headers)
           (JObj [("success", JBool true); ("slots", slots)])))
    (fun e => ret (handleError e)).

(** The [switch (action)] of [handler]. *)
Definition dispatch (action : jsval) (params : jsval) : M response :=
  match action with
  | JStr a =>
      if String.eqb a "checkAvailability" then checkAvailability params
      else if String.eqb a "findAvailability" then findAvailability params
      else if String.eqb a "getAvailableSlots" then getAvailableSlots params
      else if str_in a ["initializeAssistant"; "trialStarted"; "handleVapiWebhook";
                        "createBooking"; "rescheduleBooking"; "cancelBooking";
                        "getBookingDetails"]
      then other_action a params
      else throw (ValidationError "Invalid action specified" "action")
  | _ => throw (ValidationError "Invalid action specified" "action")
  end.

(** Body parsing of [handler]: a body that does not parse stays [{}]. *)
Definition parse_body (ev : event) : jsval :=
  match ev_body ev with
  | None => JObj []
  | Some (RawString s) =>
      if str_truthy s then match JSON_parse s with Some v => v | None => JObj [] end
      else JObj []
  | Some (RawValue v) => if truthy v then v else JObj []
  end.

(** Action resolution of [handler]. *)
Definition resolve_action (ev : event) (body : jsval) : M jsval :=
  let lastPathPart := last_path_part (path ev) in
  let isCreatePath :=
    match path ev with Some p => String.eqb p "/createBooking" | None => false end in
  let queryAction := match qget (query_of ev) "action" with Some a => a | None => EmptyString end in
  if String.eqb lastPathPart "createBooking" || isCreatePath then ret (JStr "createBooking")
  else if str_truthy queryAction then ret (JStr queryAction)
  else if str_truthy lastPathPart then
    ret (JStr (if str_in lastPathPart knownActions then lastPathPart else "handleVapiWebhook"))
  else (ba <- prop body "action" ;; ret (if truthy ba then ba else JStr "handleVapiWebhook")).

(** Parameter merge of [handler]: [{...body}], then the resolved action,
    then every query key whose current value is falsy. *)
Definition merge_params (body : jsval) (action : jsval) (q : list (string * string)) : obj :=
  let params := spread body in
  let params := if truthy (get params "action") then params else set params "action" action in
  fold_left (fun p kv => if truthy (get p (fst kv)) then p else set p (fst kv) (JStr (snd kv)))
            q params.

Definition is_options (ev : event) : bool :=
  match httpMethod ev with Some m => String.eqb m "OPTIONS" | None => false end.

(** [exports.handler] *)
Definition handler (ev : event) : M response :=
  if is_options ev then ret options_response else
  try_catch (
    let body := parse_body ev in
    action <- resolve_action ev body ;;
    let params := merge_params body action (query_of ev) in
    result <- dispatch action (JObj params) ;;
    ret (add_cors result))
    (fun e => ret (handleError e)).

(** [JSON.parse(v)] of [functionCall.arguments], the value coerced to a
    string first. *)
Definition parse_arguments (v : jsval) : jsval :=
  let text := match v with JStr s => s | _ => js_to_string v end in
  match JSON_parse text with Some p => p | None => JObj [] end.

(** The [switch (functionName)] of [handleFunctionCall]. *)
Definition dispatch_function (functionName : jsval) (parameters : jsval) : M response :=
  match functionName with
  | JStr f =>
      if String.eqb f "checkAvailability" then checkAvailability parameters
      else if str_in f ["createBooking"; "rescheduleBooking"; "cancelBooking";
                        "getBookingDetails"]
      then other_action f parameters
      else throw (ValidationError ("Unknown function: " ++ f)%string "function")
  | _ => throw (ValidationError ("Unknown function: " ++ js_to_string functionName)%string
                                "function")
  end.

(** [handleFunctionCall(body)] (src/index.js) *)
Definition handleFunctionCall (fbody : jsval) : M response :=
  f <- prop fbody "function" ;;
  functionCall <- prop fbody "functionCall" ;;
  let functionName := js_or f (oprop functionCall "name") in
  p <- prop fbody "parameters" ;;
  let parameters :=
    if truthy p then p
    else if truthy (oprop functionCall "parameters") then oprop functionCall "parameters"
    else if truthy (oprop functionCall "arguments")
    then parse_arguments (oprop functionCall "arguments")
    else JUndefined in
  try_catch (
    result <- dispatch_function functionName parameters ;;
    let parsedResult := match body result with JUndefined => JObj [] | b => b end in
    let functionResponse :=
      if js_strict_eqb functionName (JStr "createBooking") && (statusCode result =? 409)
         && truthy (oprop parsedResult "alternativeSlots")
      then JObj [("success", JBool false);
                 ("error", oprop parsedResult "error");
                 ("alternativeSlots", oprop parsedResult "alternativeSlots");
                 ("message", oprop parsedResult "message")]
      else parsedResult in
    ret (mkResponse 200 [] (envelope functionName ("response", functionResponse))))
    (fun e => ret (mkResponse 200 [] (envelope functionName ("error", JStr (err_message e))))).

End Handlers.

End Dispatch.

(** ** The operations of [src/index.js] behind the dispatcher

    [createBooking], [rescheduleBooking], [cancelBooking],
    [getBookingDetails], [initializeAssistant], [handleTrialStarted] and
    [handleVapiWebhook] of the current [src/index.js].  The calls they make to
    [calApi] and [vapiService] are an arbitrary effect [ext] on the world:
    any answer, any error, any change. *)
Module Ops.
Import Dispatch.

Inductive ext_call :=
| XCreateBooking (bookingData : jsval)
| XRescheduleBooking (bookingId details : jsval)
| XCancelBooking (bookingId details : jsval)
| XGetBooking (bookingId : jsval)
| XCreateAssistant (assistantConfig : jsval)
| XCreateSipCall (assistantId callConfig : jsval)
| XCreateCall (assistantId callConfig : jsval).

(** [new Error(message)] *)
Definition PlainError (message : string) : js_error :=
  mkError "Error" message None None None None None.

(** The [TypeError] of [const { k, ... } = v] on [undefined] or [null]. *)
Definition DestructureError (k var : string) (v : jsval) : js_error :=
  mkError "TypeError"
    ("Cannot destructure property '" ++ k ++ "' of '" ++ var ++ "' as it is "
     ++ (match v with JNull => "null" | _ => "undefined" end) ++ ".")%string
    None None None None None.

(** [const { k, ... } = v]: throws on [undefined] and [null], reads [v.k]
    otherwise. *)
Definition destr (var : string) (v : jsval) (k : string) : M jsval :=
  match v with
  | JUndefined | JNull => throw (DestructureError k var v)
  | _ => ret (oprop v k)
  end.

(** [ApiError] is neither imported nor declared in [src/index.js]: reading it
    throws. *)
Definition ApiErrorReference : js_error :=
  mkError "ReferenceError" "ApiError is not defined" None None None None None.

(** [{statusCode: 200, body: {success: true, ...fields}}] *)
Definition ok_response (fields : obj) : response :=
  mkResponse 200 [] (JObj (("success", JBool true) :: fields)).

(** Whether the template coercion [`${v}`] throws on a JSON value: an
    object with an own [toString] (never callable in JSON) falls back to the
    inherited [valueOf], which returns the object itself, so [ToPrimitive]
    throws; arrays coerce their elements through [join]. *)
Fixpoint template_throws (v : jsval) : bool :=
  match v with
  | JArr l =>
      (fix any (l : list jsval) : bool :=
         match l with [] => false | x :: r => template_throws x || any r end) l
  | JObj o => existsb (fun kv => String.eqb (fst kv) "toString") o
  | _ => false
  end.

(** The [TypeError] of that coercion. *)
Definition TemplateError : js_error :=
  mkError "TypeError" "Cannot convert object to primitive value" None None None None None.

Section Operations.

(** [JSON.parse], the provider calls of [Dispatch], and the [calApi] and
    [vapiService] calls of these operations. *)
Variable JSON_parse : string -> option jsval.
Variable provider : provider_call -> outcome jsval.
Variable ext : ext_call -> M jsval.
(** [parseInt(s, 10)] on a string. *)
Variable parseInt_str : string -> jsval.
(** [new Date(new Date(start).getTime() + minutes * 60000).toISOString()],
    which throws a [RangeError] on an invalid date. *)
Variable end_after : jsval -> jsval -> M jsval.
(** [config.app.defaultDuration], [config.vapi.assistantId],
    [config.vapi.apiKey] and [vapiService.createDefaultAssistantConfig()]. *)
Variable defaultDuration : jsval.
Variable vapi_assistantId : jsval.
Variable vapi_apiKey : jsval.
Variable defaultAssistantConfig : jsval.

(** [createBooking] (src/index.js): a call already in the provider's shape
    is passed through; the legacy shape is validated and converted. *)
Definition createBookingV1 (params : jsval) : M response :=
  try_catch (
    eid <- prop params "eventTypeId" ;; st <- prop params "start" ;;
    rs <- prop params "responses" ;; tz <- prop params "timeZone" ;;
    if truthy eid && truthy st && truthy rs && truthy tz then
      k <- prop params "apiKey" ;; c <- get_config ;;
      let params' := match params with
                     | JObj o => JObj (set o "apiKey" (js_or k (cal_apiKey c)))
                     | _ => params
                     end in
      booking <- ext (XCreateBooking params') ;;
      ret (ok_response [("booking", booking);
                        ("message", JStr "Booking created successfully")])
    else
    name <- prop params "name" ;;
    if negb (truthy name) then throw (ValidationError "Name is required" "name") else
    email <- prop params "email" ;;
    if negb (truthy email) then throw (ValidationError "Email is required" "email") else
    startTime <- prop params "startTime" ;;
    if negb (truthy startTime) then throw (ValidationError "Start time is required" "startTime") else
    eventTypeId <- prop params "eventTypeId" ;;
    if negb (truthy eventTypeId)
    then throw (ValidationError "Event type ID is required" "eventTypeId") else
    timeZone <- prop params "timeZone" ;;
    if negb (truthy timeZone) then throw (ValidationError "Time zone is required" "timeZone") else
    k <- prop params "apiKey" ;; c <- get_config ;;
    let apiKey := js_or k (cal_apiKey c) in
    endTime0 <- prop params "endTime" ;;
    duration <- prop params "duration" ;;
    endTime <- (if truthy endTime0 then ret endTime0
                else end_after startTime (js_or duration (js_or defaultDuration (JNum 30)))) ;;
    location <- prop params "location" ;; notes <- prop params "notes" ;;
    guests <- prop params "guests" ;; language <- prop params "language" ;;
    title <- prop params "title" ;; description <- prop params "description" ;;
    status <- prop params "status" ;; metadata <- prop params "metadata" ;;
    let bookingData :=
      JObj [("eventTypeId", match eventTypeId with JStr s => parseInt_str s | v => v end);
            ("start", startTime); ("end", endTime);
            ("responses",
             JObj [("name", name); ("email", email);
                   ("location", if truthy location then JObj [("value", location)]
                                else JObj [("value", JStr "integrations:daily")]);
                   ("notes", js_or notes (JStr EmptyString));
                   ("guests", js_or guests (JArr []))]);
            ("timeZone", timeZone); ("language", js_or language (JStr "en"));
            ("title", title); ("description", description);
            ("status", js_or status (JStr "ACCEPTED"));
            ("metadata", js_or metadata (JObj [("source", JStr "lambda-integration")]));
            ("apiKey", apiKey)] in
    try_catch (
      booking <- ext (XCreateBooking bookingData) ;;
      ret (ok_response [("booking", booking);
                        ("message", JStr "Booking created successfully")]))
      (fun _ => throw ApiErrorReference))
    (fun e => ret (handleError e)).

(** [rescheduleBooking] (src/index.js) *)
Definition rescheduleBooking (params : jsval) : M response :=
  bookingId <- destr "params" params "bookingId" ;;
  let startTime := oprop params "startTime" in
  let endTime := oprop params "endTime" in
  let timeZone := oprop params "timeZone" in
  if negb (truthy bookingId && truthy startTime && truthy timeZone)
  then throw (ValidationError "Missing required parameters" "params") else
  endTime' <- (if truthy endTime then ret endTime else end_after startTime defaultDuration) ;;
  booking <- ext (XRescheduleBooking bookingId
                    (JObj [("startTime", startTime); ("endTime", endTime');
                           ("timeZone", timeZone)])) ;;
  ret (ok_response [("booking", booking);
                    ("message", JStr "Booking rescheduled successfully")]).

(** [cancelBooking] (src/index.js) *)
Definition cancelBooking (params : jsval) : M response :=
  bookingId <- destr "params" params "bookingId" ;;
  let reason := oprop params "reason" in
  if negb (truthy bookingId)
  then throw (ValidationError "Missing required parameters" "params") else
  booking <- ext (XCancelBooking bookingId
                    (JObj [("reason", js_or reason (JStr "Cancelled by user"))])) ;;
  ret (ok_response [("booking", booking);
                    ("message", JStr "Booking cancelled successfully")]).

(** [getBookingDetails] (src/index.js) *)
Definition getBookingDetails (params : jsval) : M response :=
  bookingId <- destr "params" params "bookingId" ;;
  if negb (truthy bookingId)
  then throw (ValidationError "Missing required parameters" "params") else
  booking <- ext (XGetBooking bookingId) ;;
  ret (ok_response [("booking", booking)]).

(** The operations [handleFunctionCall] dispatches to besides
    [checkAvailability]; it calls this only with these four names. *)
Definition booking_ops (name : string) (params : jsval) : M response :=
  if String.eqb name "createBooking" then createBookingV1 params
  else if String.eqb name "rescheduleBooking" then rescheduleBooking params
  else if String.eqb name "cancelBooking" then cancelBooking params
  else if String.eqb name "getBookingDetails" then getBookingDetails params
  else throw (ValidationError ("Unknown function: " ++ name)%string "function").

(** [initializeAssistant] (src/index.js) *)
Definition initializeAssistant (params : jsval) : M response :=
  assistantId <- (if truthy vapi_assistantId then ret vapi_assistantId
                  else assistant <- ext (XCreateAssistant defaultAssistantConfig) ;;
                       prop assistant "id") ;;
  ret (ok_response
         [("assistantId", assistantId); ("apiKey", vapi_apiKey);
          ("message", JStr "VAPI assistant ready for web integration");
          ("instructions", JStr "Use this assistantId and apiKey with the VAPI Web SDK to integrate voice interface on your website.")]).

(** [error.statusCode || 500] *)
Definition status_or_500 (e : js_error) : Z :=
  match err_statusCode e with Some s => if s =? 0 then 500 else s | None => 500 end.

(** [handleTrialStarted] (src/index.js): a SIP call first, a regular call
    when it throws. *)
Definition handleTrialStarted (body : jsval) : M response :=
  name <- destr "body" body "name" ;;
  let email := oprop body "email" in
  let phoneNumber := oprop body "phoneNumber" in
  if negb (truthy name && truthy email && truthy phoneNumber) then
    ret (mkResponse 400 []
           (JObj [("success", JBool false); ("error", JStr "Missing required parameters")]))
  else
  try_catch (
    let assistantId := vapi_assistantId in
    if negb (truthy assistantId) then throw (PlainError "No VAPI assistant ID configured") else
    (* the log line `Using VAPI assistant: ${assistantId} to call ${phoneNumber}` *)
    if template_throws assistantId || template_throws phoneNumber then throw TemplateError else
    let callConfig :=
      JObj [("phoneNumber", phoneNumber);
            ("metadata", JObj [("userId", email); ("userName", name);
                               ("userEmail", email); ("userPhone", phoneNumber)])] in
    r <- try_catch (c <- ext (XCreateSipCall assistantId callConfig) ;; ret (c, None))
           (fun sipError =>
              try_catch (c <- ext (XCreateCall assistantId callConfig) ;; ret (c, Some sipError))
                        (fun regularError => ret (JUndefined, Some regularError))) ;;
    let '(call, error) := r in
    if negb (truthy call) then
      throw (match error with
             | Some e => e
             | None => PlainError "Failed to initiate call through any method"
             end)
    else
    ret (ok_response [("callId", oprop call "id");
                      ("message", JStr "Call initiated successfully")]))
  (fun error =>
     ret (mkResponse (status_or_500 error) []
            (JObj [("success", JBool false);
                   ("error", JStr (if str_truthy (err_message error) then err_message error
                                   else "Error initiating call"))]))).

(** [handleVapiWebhook] (src/index.js) *)
Definition handleVapiWebhook (body : jsval) : M response :=
  ty <- prop body "type" ;;
  try_catch (
    if js_strict_eqb ty (JStr "function") || js_strict_eqb ty (JStr "function-call") then
      f <- prop body "function" ;; fc <- prop body "functionCall" ;;
      let functionName := js_or f (oprop fc "name") in
      p <- prop body "parameters" ;;
      let parameters :=
        if truthy p then p
        else if truthy (oprop fc "parameters") then oprop fc "parameters"
        else if truthy (oprop fc "arguments")
        then parse_arguments JSON_parse (oprop fc "arguments")
        else JUndefined in
      cid <- prop body "callId" ;; cl <- prop body "call" ;; msg <- prop body "message" ;;
      let callId := js_or cid (js_or (oprop cl "id") (oprop (oprop msg "call") "id")) in
      handleFunctionCall JSON_parse provider booking_ops
        (JObj [("function", functionName); ("parameters", parameters); ("callId", callId)])
    else if js_strict_eqb ty (JStr "tool") then
      t <- prop body "tool" ;;
      let toolName := oprop t "name" in
      let parameters := js_or (oprop t "parameters") (JObj []) in
      if js_strict_eqb toolName (JStr "booking") then createBookingV1 parameters
      else if template_throws toolName then throw TemplateError
      else ret (mkResponse 400 []
                  (JObj [("success", JBool false);
                         ("error", JStr ("Unknown tool: " ++ js_to_string toolName)%string)]))
    else if js_strict_eqb ty (JStr "transcript") then
      ret (mkResponse 200 [] (JObj [("success", JBool true)]))
    else if js_strict_eqb ty (JStr "call_ended") || js_strict_eqb ty (JStr "status-update") then
      ret (mkResponse 200 [] (JObj [("success", JBool true)]))
    else ret (mkResponse 200 [] (JObj [("success", JBool true)])))
  (fun error =>
     ret (mkResponse 500 []
            (JObj [("success", JBool false); ("error", JStr (err_message error))]))).

(** The actions the [handler] dispatches to besides [checkAvailability],
    [findAvailability] and [getAvailableSlots]. *)
Definition index_actions (action : string) (params : jsval) : M response :=
  if String.eqb action "initializeAssistant" then initializeAssistant params
  else if String.eqb action "trialStarted" then handleTrialStarted params
  else if String.eqb action "handleVapiWebhook" then handleVapiWebhook params
  else if String.eqb action "createBooking" then createBookingV1 params
  else if String.eqb action "rescheduleBooking" then rescheduleBooking params
  else if String.eqb action "cancelBooking" then cancelBooking params
  else if String.eqb action "getBookingDetails" then getBookingDetails params
  else throw (ValidationError "Invalid action specified" "action").

End Operations.

End Ops.

(** ** Auxiliary views used to state properties *)
Module Views.
Import Dispatch Ops.

(** The query step of [merge_params]. *)
Definition merge_step (p : obj) (kv : string * string) : obj :=
  if truthy (get p (fst kv)) then p else set p (fst kv) (JStr (snd kv)).

(** Each own key of a JavaScript object occurs once: [get] finds the value
    a property read sees. *)
Fixpoint keys_unique (o : obj) : bool :=
  match o with
  | [] => true
  | (k, _) :: o' => negb (existsb (String.eqb k) (map fst o')) && keys_unique o'
  end.

(** The properties every plain object inherits from [Object.prototype];
    reading one of them on [params] gives a truthy function (or the
    prototype itself for [__proto__]). *)
Definition object_prototype_keys : list string :=
  ["constructor"; "__defineGetter__"; "__defineSetter__"; "hasOwnProperty";
   "__lookupGetter__"; "__lookupSetter__"; "isPrototypeOf"; "propertyIsEnumerable";
   "toString"; "valueOf"; "__proto__"; "toLocaleString"].

(** The values whose template coercion [`${v}`] is [js_to_string v]. *)
Definition prints_as_in_js (v : jsval) : bool :=
  match v with
  | JUndefined | JNull | JBool _ | JStr _ => true
  | _ => false
  end.

(** The legacy-shape checks of [createBooking] (src/index.js), in order. *)
Definition legacy_required : list (string * string) :=
  [("name", "Name is required"); ("email", "Email is required");
   ("startTime", "Start time is required"); ("eventTypeId", "Event type ID is required");
   ("timeZone", "Time zone is required")].

(** The first required field that is falsy, with its message. *)
Definition first_missing (o : obj) : option (string * string) :=
  find (fun km => negb (truthy (get o (fst km)))) legacy_required.

(** The test for a call already in the provider's shape. *)
Definition passthrough (o : obj) : bool :=
  truthy (get o "eventTypeId") && truthy (get o "start") && truthy (get o "responses")
  && truthy (get o "timeZone").

(** The [callConfig] that [handleTrialStarted] passes to both call methods. *)
Definition trial_call_config (name email phoneNumber : jsval) : jsval :=
  JObj [("phoneNumber", phoneNumber);
        ("metadata", JObj [("userId", email); ("userName", name);
                           ("userEmail", email); ("userPhone", phoneNumber)])].

(** The body of a trial-call failure: [error.message || 'Error initiating call']. *)
Definition trial_failure (e : js_error) : response :=
  mkResponse (status_or_500 e) []
    (JObj [("success", JBool false);
           ("error", JStr (if str_truthy (err_message e) then err_message e
                           else "Error initiating call"))]).

(** [m] can only return values satisfying [P]: an invariant of the answers
    of a computation, whatever its effects. *)
Definition yields_only {A} (P : A -> Prop) (m : M A) : Prop :=
  forall w a w', m w = (inl a, w') -> P a.

(** A response body without an [alternativeSlots] field. *)
Definition no_alternatives (r : response) : Prop :=
  oprop (body r) "alternativeSlots" = JUndefined.

End Views.

(** ** Concrete inputs *)
Module Inputs.
Import JsDate Booking Dispatch Ops.

(** [Date.UTC(y, m - 1, d, h, mi)] *)
Definition at_utc (y m d h mi : Z) : Z := MakeDate (days_from_civil y m d) (MakeTime h mi 0 0).

Definition now_jun_2025 : Z := at_utc 2025 6 15 12 0.
Definition start_mar_2023 : Z := at_utc 2023 3 10 10 0.
Definition end_mar_2023 : Z := at_utc 2023 3 10 10 30.
Definition repaired_mar_2026 : Z := at_utc 2026 3 10 10 0.
Definition start_feb29_2024 : Z := at_utc 2024 2 29 10 0.

Definition legacy_request : booking_params :=
  mkParams "Jane Doe" "jane@example.com" (Some start_mar_2023) (Some end_mar_2023)
           "UTC" "2077162".

(** A provider whose every availability query offers exactly the repaired
    slot. *)
Definition offers_repaired_slot : cal_provider :=
  mkProvider (fun _ _ _ _ => inl [repaired_mar_2026]) (fun _ => inl (JObj [("id", JNum 1)])).

Definition no_json : string -> option jsval := fun _ => None.
Definition provider_empty : provider_call -> outcome jsval := fun _ => inl (JArr []).
Definition other_ok : string -> jsval -> M response :=
  fun _ _ => ret (mkResponse 200 [] (JObj [("success", JBool true)])).
Definition today_iso : jsval := JStr "2025-06-15T12:00:00.000Z".
Definition two_weeks_later : jsval -> jsval := fun _ => JStr "2025-06-29T12:00:00.000Z".

Definition tenant_a_world : world :=
  mkWorld (mkConfig (JStr "cal_live_tenant_a") (JStr "2077162") (JStr "owner")) [].

(** [GET /?action=getAvailableSlots&...&apiKey=cal_live_tenant_b] *)
Definition slots_request_tenant_b : event :=
  mkEvent (Some "GET") (Some "/")
    (Some [("action", "getAvailableSlots"); ("startTime", "2025-07-01T00:00:00Z");
           ("endTime", "2025-07-08T00:00:00Z"); ("apiKey", "cal_live_tenant_b")])
    None.

(** [POST /findAvailability] *)
Definition find_availability_request : event :=
  mkEvent (Some "POST") (Some "/findAvailability") None
    (Some (RawValue (JObj [("action", JStr "findAvailability"); ("id", JNum 42)]))).

(** A voice-platform function call to [checkAvailability] without dates. *)
Definition check_without_dates : jsval :=
  JObj [("function", JStr "checkAvailability"); ("parameters", JObj []);
        ("callId", JStr "call-123")].

(** [OPTIONS /createBooking?action=getAvailableSlots] with a body that is
    not JSON. *)
Definition options_request : event :=
  mkEvent (Some "OPTIONS") (Some "/createBooking") (Some [("action", "getAvailableSlots")])
    (Some (RawString "{not json")).

(** A body whose [startDate] is present but empty, and a query that also
    names [startDate]. *)
(** [parseInt(s, 10)] on the strings of these inputs; [NaN] is kept as
    [undefined], the other falsy value. *)
Definition parse_int_str (s : string) : jsval :=
  match parseInt10 (JStr s) with Some n => JNum n | None => JUndefined end.
(** The end of a 30-minute slot starting 2025-07-01 10:00 UTC. *)
Definition end_30 : jsval -> jsval -> M jsval :=
  fun _ _ => ret (JStr "2025-07-01T10:30:00.000Z").
(** A provider whose calls all succeed with [{id: 'id-1'}]. *)
Definition ext_ok : Ops.ext_call -> M jsval := fun _ => ret (JObj [("id", JStr "id-1")]).
(** The provider's 409 for a slot already taken. *)
Definition slot_taken : js_error :=
  mkError "ApiError" "Slot already booked" (Some 409) None None None None.
Definition ext_conflict : Ops.ext_call -> M jsval :=
  fun c => match c with
           | Ops.XCreateBooking _ => throw slot_taken
           | _ => ret (JObj [("id", JStr "id-1")])
           end.
(** A voice platform whose SIP trunk is down but whose regular calls work. *)
Definition sip_down : js_error :=
  mkError "Error" "SIP trunk unavailable" (Some 503) None None None None.
Definition ext_sip_down : Ops.ext_call -> M jsval :=
  fun c => match c with
           | Ops.XCreateSipCall _ _ => throw sip_down
           | _ => ret (JObj [("id", JStr "id-2")])
           end.
(** A complete legacy-shape booking request. *)
Definition legacy_booking_body : obj :=
  [("name", JStr "Jane Doe"); ("email", JStr "jane@example.com");
   ("startTime", JStr "2025-07-01T10:00:00Z"); ("endTime", JStr "2025-07-01T10:30:00Z");
   ("eventTypeId", JStr "2077162"); ("timeZone", JStr "UTC")].
(** A trial-started body whose phone number is an object with an own
    [toString]. *)
Definition trial_body_object_phone : obj :=
  [("name", JStr "Jane Doe"); ("email", JStr "jane@example.com");
   ("phoneNumber", JObj [("toString", JNum 1)])].
(** A complete trial-started body. *)
Definition trial_body : obj :=
  [("name", JStr "Jane Doe"); ("email", JStr "jane@example.com");
   ("phoneNumber", JStr "+15551234567")].

Definition body_empty_startDate : jsval :=
  JObj [("startDate", JStr EmptyString); ("endDate", JStr "2024-01-31")].
Definition query_startDate : list (string * string) := [("startDate", "2024-01-01")].

End Inputs.

(** ** Calendar facts *)
Module JsDateFacts.
Import JsDate.

Lemma all_from_spec (fuel : nat) (i : Z) (f : Z -> bool) :
  all_from fuel i f = true -> forall z, i <= z < i + Z.of_nat fuel -> f z = true.
Proof.
  revert i; induction fuel as [|k IH]; intros i H z Hz; simpl in *.
  - lia.
  - apply andb_prop in H as [Hi Hk].
    destruct (Z.eq_dec z i) as [->|Hne]; [exact Hi|].
    apply (IH (i + 1)); [exact Hk | lia].
Qed.

Lemma all_below_spec (n : Z) (f : Z -> bool) :
  all_below n f = true -> 0 <= n -> forall z, 0 <= z < n -> f z = true.
Proof.
  unfold all_below; intros H Hn z Hz.
  apply (all_from_spec _ _ _ H); rewrite Z2Nat.id by lia; lia.
Qed.

Lemma era_roundtrip_ok :
  all_below 400 (fun yoe => all_below 12 (fun mp => all_below 31 (roundtrip_cell yoe mp)))
  = true.
Proof. vm_compute. reflexivity. Qed.

Lemma era_split_ok : all_below 146097 split_cell = true.
Proof. vm_compute. reflexivity. Qed.

Lemma dimMar_bounds (yoe mp : Z) : 28 <= dimMar yoe mp <= 31.
Proof.
  unfold dimMar.
  destruct (mp =? 11); [destruct (leap (yoe + 1)); lia|].
  destruct ((mp =? 1) || (mp =? 3) || (mp =? 6) || (mp =? 8)); lia.
Qed.

Lemma split_doe_of (yoe mp d : Z) :
  0 <= yoe < 400 -> 0 <= mp < 12 -> 1 <= d <= dimMar yoe mp ->
  0 <= doe_of yoe mp d < 146097 /\ split_doe (doe_of yoe mp d) = (yoe, mp, d).
Proof.
  intros Hy Hm Hd.
  pose proof (dimMar_bounds yoe mp).
  pose proof (all_below_spec _ _ era_roundtrip_ok ltac:(lia) yoe ltac:(lia)) as H1.
  pose proof (all_below_spec _ _ H1 ltac:(lia) mp ltac:(lia)) as H2.
  pose proof (all_below_spec _ _ H2 ltac:(lia) (d - 1) ltac:(lia)) as H3.
  clear H1 H2; unfold roundtrip_cell in H3; cbv beta zeta in H3.
  replace (d - 1 + 1) with d in H3 by lia.
  rewrite (proj2 (Z.leb_le _ _) (proj2 Hd)) in H3.
  destruct (split_doe (doe_of yoe mp d)) as [[a b] c].
  repeat match goal with H : _ && _ = true |- _ => apply andb_prop in H as [? ?] end.
  repeat match goal with
         | H : (_ =? _) = true |- _ => apply Z.eqb_eq in H
         | H : (_ <=? _) = true |- _ => apply Z.leb_le in H
         | H : (_ <? _) = true |- _ => apply Z.ltb_lt in H
         end.
  subst; split; [lia | reflexivity].
Qed.

Lemma split_doe_bounds (doe : Z) :
  0 <= doe < 146097 ->
  let '(yoe, mp, d) := split_doe doe in
  0 <= yoe < 400 /\ 0 <= mp < 12 /\ 1 <= d <= dimMar yoe mp /\ doe_of yoe mp d = doe.
Proof.
  intros Hd.
  pose proof (all_below_spec _ _ era_split_ok ltac:(lia) doe Hd) as H.
  unfold split_cell in H.
  destruct (split_doe doe) as [[yoe mp] d].
  repeat match goal with H : _ && _ = true |- _ => apply andb_prop in H as [? ?] end.
  repeat match goal with
         | H : (_ =? _) = true |- _ => apply Z.eqb_eq in H
         | H : (_ <=? _) = true |- _ => apply Z.leb_le in H
         | H : (_ <? _) = true |- _ => apply Z.ltb_lt in H
         end.
  lia.
Qed.

Lemma leap_periodic (x k : Z) : leap (x + 400 * k) = leap x.
Proof.
  unfold leap.
  replace (x + 400 * k) with (x + (100 * k) * 4) by ring.
  rewrite Z.mod_add by lia.
  replace (x + 100 * k * 4) with (x + (4 * k) * 100) by ring.
  rewrite Z.mod_add by lia.
  replace (x + 4 * k * 100) with (x + k * 400) by ring.
  rewrite Z.mod_add by lia.
  reflexivity.
Qed.

(** The March-based month length agrees with the civil one. *)
Lemma dimMar_days_in_month (y m : Z) :
  1 <= m <= 12 ->
  let y' := if m <=? 2 then y - 1 else y in
  dimMar (y' - y' / 400 * 400) ((m + 9) mod 12) = days_in_month y m.
Proof.
  intros Hm y'.
  assert (m = 1 \/ m = 2 \/ m = 3 \/ m = 4 \/ m = 5 \/ m = 6 \/ m = 7 \/ m = 8 \/
          m = 9 \/ m = 10 \/ m = 11 \/ m = 12) as Hc by lia.
  unfold y' in *; clear y'.
  destruct (Z.eq_dec m 2) as [->|Hne2].
  - unfold dimMar, days_in_month.
    change ((2 + 9) mod 12) with 11. change (2 <=? 2) with true. cbv iota.
    change (11 =? 11) with true. change (2 =? 2) with true. cbv iota.
    replace (y - 1 - (y - 1) / 400 * 400 + 1) with (y + 400 * (- ((y - 1) / 400))) by ring.
    rewrite leap_periodic; reflexivity.
  - unfold dimMar, days_in_month.
    destruct Hc as [->|[->|[->|[->|[->|[->|[->|[->|[->|[->|[->| ->]]]]]]]]]]];
      first [congruence | vm_compute; reflexivity].
Qed.

(** Round trip: a valid civil date survives [days_from_civil] and back. *)
Lemma civil_days_roundtrip (y m d : Z) :
  1 <= m <= 12 -> 1 <= d <= days_in_month y m ->
  civil_from_days (days_from_civil y m d) = (y, m, d).
Proof.
  intros Hm Hd.
  pose proof (dimMar_days_in_month y m Hm) as Hdim; cbv zeta in Hdim.
  unfold days_from_civil, civil_from_days.
  set (y' := if m <=? 2 then y - 1 else y) in *.
  set (era := y' / 400) in *.
  set (yoe := y' - era * 400) in *.
  set (mp := (m + 9) mod 12) in *.
  assert (Hyoe : 0 <= yoe < 400).
  { unfold yoe, era; pose proof (Z.mod_pos_bound y' 400 ltac:(lia)).
    rewrite Z.mod_eq in * by lia; lia. }
  assert (Hmp : mp = if m <=? 2 then m + 9 else m - 3).
  { unfold mp; destruct (Z.leb_spec m 2).
    - rewrite Z.mod_small; lia.
    - replace (m + 9) with ((m - 3) + 1 * 12) by ring.
      rewrite Z.mod_add, Z.mod_small by lia; reflexivity. }
  assert (Hmpb : 0 <= mp < 12) by (rewrite Hmp; destruct (Z.leb_spec m 2); lia).
  destruct (split_doe_of yoe mp d Hyoe Hmpb ltac:(lia)) as [Hr Hs].
  replace (era * 146097 + doe_of yoe mp d - 719468 + 719468)
    with (era * 146097 + doe_of yoe mp d) by ring.
  rewrite Z.div_add_l, (Z.div_small (doe_of yoe mp d)), Z.add_0_r by lia.
  rewrite Z.add_comm, Z.mod_add, Z.mod_small by lia.
  rewrite Hs.
  assert (Hm' : (if mp <? 10 then mp + 3 else mp - 9) = m).
  { rewrite Hmp; destruct (Z.leb_spec m 2);
      [rewrite (proj2 (Z.ltb_ge _ _)) by lia | rewrite (proj2 (Z.ltb_lt _ _)) by lia]; lia. }
  rewrite Hm'.
  f_equal; f_equal.
  unfold yoe, y'; destruct (Z.leb_spec m 2); lia.
Qed.

(** Every day number is a valid civil date. *)
Lemma civil_valid (z y m d : Z) :
  civil_from_days z = (y, m, d) ->
  1 <= m <= 12 /\ 1 <= d <= days_in_month y m /\ days_from_civil y m d = z.
Proof.
  unfold civil_from_days; intros H.
  set (era := (z + 719468) / 146097) in *.
  set (doe := (z + 719468) mod 146097) in *.
  assert (Hdoe : 0 <= doe < 146097) by (apply Z.mod_pos_bound; lia).
  assert (Hz : z + 719468 = era * 146097 + doe)
    by (unfold era, doe; rewrite (Z.div_mod (z + 719468) 146097) at 1 by lia; ring).
  pose proof (split_doe_bounds doe Hdoe) as Hb.
  destruct (split_doe doe) as [[yoe mp] d'].
  destruct Hb as (Hyoe & Hmp & Hd' & Hof).
  assert (Hm : 1 <= (if mp <? 10 then mp + 3 else mp - 9) <= 12)
    by (destruct (Z.ltb_spec mp 10); lia).
  inversion H as [[Hy Hm' Hd]]; clear H.
  rewrite Hm' in *.
  assert (Hy' : (if m <=? 2 then y - 1 else y) = yoe + era * 400).
  { rewrite <- Hy, <- Hm'; destruct (Z.ltb_spec mp 10), (Z.leb_spec (mp + 3) 2),
      (Z.leb_spec (mp - 9) 2); lia. }
  assert (Hmp' : (m + 9) mod 12 = mp).
  { rewrite <- Hm'; destruct (Z.ltb_spec mp 10).
    - replace (mp + 3 + 9) with (mp + 1 * 12) by ring.
      rewrite Z.mod_add, Z.mod_small by lia; reflexivity.
    - replace (mp - 9 + 9) with mp by ring; apply Z.mod_small; lia. }
  assert (Hera : (yoe + era * 400) / 400 = era)
    by (rewrite Z.div_add by lia; rewrite Z.div_small by lia; ring).
  pose proof (dimMar_days_in_month y m ltac:(lia)) as Hdim; cbv zeta in Hdim.
  rewrite Hy', Hera, Hmp' in Hdim.
  replace (yoe + era * 400 - era * 400) with yoe in Hdim by ring.
  subst d; rewrite Hy; split; [lia | split; [lia |]].
  unfold days_from_civil; cbv zeta.
  rewrite Hy', Hera, Hmp'.
  replace (yoe + era * 400 - era * 400) with yoe by ring.
  lia.
Qed.

Lemma MakeDate_Day (day tod : Z) :
  0 <= tod < msPerDay -> Day (MakeDate day tod) = day /\ TimeWithinDay (MakeDate day tod) = tod.
Proof.
  unfold Day, TimeWithinDay, MakeDate, msPerDay; intros Ht; split.
  - rewrite Z.div_add_l, Z.div_small by lia; ring.
  - rewrite Z.add_comm, Z.mod_add, Z.mod_small by lia; reflexivity.
Qed.

Lemma TimeWithinDay_bounds (t : Z) : 0 <= TimeWithinDay t < msPerDay.
Proof. unfold TimeWithinDay, msPerDay; apply Z.mod_pos_bound; lia. Qed.

Lemma MakeDay_civil (y m d : Z) :
  1 <= m <= 12 -> MakeDay y (m - 1) d = days_from_civil y m d.
Proof.
  intros Hm; unfold MakeDay.
  rewrite (Z.div_small (m - 1)), (Z.mod_small (m - 1)) by lia.
  replace (y + 0) with y by ring; replace (m - 1 + 1) with m by ring.
  unfold days_from_civil, doe_of; lia.
Qed.

(** Only February 29 depends on the year. *)
Lemma days_in_month_other_year (y y2 m d : Z) :
  d <= days_in_month y m -> ~ (m = 2 /\ d = 29) -> d <= days_in_month y2 m.
Proof.
  unfold days_in_month; intros Hd Hn.
  destruct (Z.eqb_spec m 2) as [->|]; [|exact Hd].
  destruct (leap y), (leap y2); lia.
Qed.

(** [setFullYear] keeps month, date and time of day, except on February 29. *)
Lemma setFullYear_fields (t Y y m d : Z) :
  civil_from_days (Day t) = (y, m, d) -> ~ (m = 2 /\ d = 29) ->
  civil_from_days (Day (setFullYear t Y)) = (Y, m, d) /\
  TimeWithinDay (setFullYear t Y) = TimeWithinDay t.
Proof.
  intros E Hn.
  destruct (civil_valid _ _ _ _ E) as (Hm & Hd & _).
  unfold setFullYear, getMonth, getDate; rewrite E.
  rewrite MakeDay_civil by lia.
  destruct (MakeDate_Day (days_from_civil Y m d) (TimeWithinDay t) (TimeWithinDay_bounds t))
    as [-> ->].
  split; [|reflexivity].
  apply civil_days_roundtrip; [lia|].
  split; [lia|]; apply (days_in_month_other_year y); lia.
Qed.

End JsDateFacts.

(** ** Ranking of alternative slots *)
Module CalApiFacts.
Import CalApi.

Section Ranking.
Variable t0 : Z.

Lemma rank_leb_iff (a b : Z) : rank_leb t0 a b = true <-> rank_le t0 a b.
Proof.
  unfold rank_leb, rank_le; rewrite orb_true_iff, andb_true_iff, Z.ltb_lt, Z.eqb_eq, Z.leb_le.
  reflexivity.
Qed.

Lemma rank_leb_false (a b : Z) : rank_leb t0 a b = false -> rank_le t0 b a.
Proof.
  unfold rank_leb, rank_le; intros H.
  apply orb_false_iff in H as [H1 H2]; apply Z.ltb_ge in H1.
  destruct (Z.eqb_spec (dist t0 a) (dist t0 b)); simpl in H2.
  - apply Z.leb_gt in H2; right; lia.
  - left; lia.
Qed.

Lemma rank_le_trans (a b c : Z) : rank_le t0 a b -> rank_le t0 b c -> rank_le t0 a c.
Proof. unfold rank_le; lia. Qed.

Lemma rank_le_antisym (a b : Z) : rank_le t0 a b -> rank_le t0 b a -> a = b.
Proof. unfold rank_le; lia. Qed.

Lemma rank_insert_perm (x : Z) (l : list Z) : Permutation (rank_insert t0 x l) (x :: l).
Proof.
  induction l as [|y l IH]; simpl; [reflexivity|].
  destruct (rank_leb t0 x y); [reflexivity|].
  rewrite IH; apply perm_swap.
Qed.

Lemma rank_perm (l : list Z) : Permutation (rank t0 l) l.
Proof.
  induction l as [|x l IH]; simpl; [reflexivity|].
  rewrite rank_insert_perm, IH; reflexivity.
Qed.

Lemma rank_insert_sorted (x : Z) (l : list Z) :
  StronglySorted (rank_le t0) l -> StronglySorted (rank_le t0) (rank_insert t0 x l).
Proof.
  induction l as [|y l IH]; intros Hs; simpl.
  - repeat constructor.
  - apply StronglySorted_inv in Hs as [Hs Hy].
    destruct (rank_leb t0 x y) eqn:E.
    + apply rank_leb_iff in E.
      constructor; [constructor; assumption|].
      constructor; [exact E|].
      apply Forall_forall; intros z Hz.
      apply (rank_le_trans _ y); [exact E|].
      exact (proj1 (Forall_forall _ _) Hy z Hz).
    + apply rank_leb_false in E.
      constructor; [apply IH, Hs|].
      apply Forall_forall; intros z Hz.
      apply (Permutation_in _ (rank_insert_perm x l)) in Hz as [<-|Hz]; [exact E|].
      exact (proj1 (Forall_forall _ _) Hy z Hz).
Qed.

Lemma rank_sorted (l : list Z) : StronglySorted (rank_le t0) (rank t0 l).
Proof.
  induction l as [|x l IH]; simpl; [constructor|].
  apply rank_insert_sorted, IH.
Qed.

(** A sorted permutation is unique: the order is total and antisymmetric. *)
Lemma sorted_perm_unique (l1 l2 : list Z) :
  StronglySorted (rank_le t0) l1 -> StronglySorted (rank_le t0) l2 ->
  Permutation l1 l2 -> l1 = l2.
Proof.
  revert l2; induction l1 as [|a l1 IH]; intros l2 H1 H2 Hp.
  - symmetry; apply Permutation_nil, Hp.
  - destruct l2 as [|b l2]; [apply Permutation_sym, Permutation_nil in Hp; discriminate|].
    apply StronglySorted_inv in H1 as [H1 Ha].
    apply StronglySorted_inv in H2 as [H2 Hb].
    assert (a = b) as <-.
    { assert (Ina : In a (b :: l2)) by (apply (Permutation_in _ Hp); left; reflexivity).
      assert (Inb : In b (a :: l1)) by (apply (Permutation_in _ (Permutation_sym Hp)); left; reflexivity).
      destruct Ina as [->|Ina]; [reflexivity|].
      destruct Inb as [->|Inb]; [reflexivity|].
      apply rank_le_antisym.
      - exact (proj1 (Forall_forall _ _) Ha b Inb).
      - exact (proj1 (Forall_forall _ _) Hb a Ina). }
    f_equal; apply IH; [exact H1 | exact H2 | exact (Permutation_cons_inv Hp)].
Qed.

Lemma StronglySorted_app_inv (l1 l2 : list Z) :
  StronglySorted (rank_le t0) (l1 ++ l2) ->
  StronglySorted (rank_le t0) l1 /\
  (forall x y, In x l1 -> In y l2 -> rank_le t0 x y).
Proof.
  induction l1 as [|a l1 IH]; simpl; intros H.
  - split; [constructor | intros x y []].
  - apply StronglySorted_inv in H as [H Ha].
    destruct (IH H) as [Hs Hlt]; split.
    + constructor; [exact Hs|].
      apply Forall_forall; intros z Hz.
      apply (proj1 (Forall_forall _ _) Ha); apply in_or_app; left; exact Hz.
    + intros x y [<-|Hx] Hy; [|exact (Hlt x y Hx Hy)].
      apply (proj1 (Forall_forall _ _) Ha); apply in_or_app; right; exact Hy.
Qed.

End Ranking.

(** C3: [findAlternativeTimeSlots(slots, t0, N)] returns at most [N]
    entries, ordered by ascending distance to [t0] with the earlier time
    first on ties; they are the [N] best-ranked slots of the input, and the
    result depends only on the multiset of candidates. *)
Theorem findAlternativeTimeSlots_ranked (slots : list Z) (t0 : Z) (n : nat) :
  let r := findAlternativeTimeSlots slots t0 n in
  (List.length r <= n)%nat /\
  StronglySorted (rank_le t0) r /\
  (exists rest, Permutation (r ++ rest)%list slots /\
                forall x y, In x r -> In y rest -> rank_le t0 x y) /\
  (forall slots', Permutation slots slots' -> findAlternativeTimeSlots slots' t0 n = r).
Proof.
  intros r; unfold r, findAlternativeTimeSlots.
  pose proof (rank_sorted t0 slots) as Hs.
  rewrite <- (firstn_skipn n (rank t0 slots)) in Hs.
  destruct (StronglySorted_app_inv t0 _ _ Hs) as [Hf Hlt].
  split; [apply firstn_le_length|].
  split; [exact Hf|].
  split.
  - exists (skipn n (rank t0 slots)); split; [|exact Hlt].
    rewrite firstn_skipn; apply rank_perm.
  - intros slots' Hp; f_equal.
    apply (sorted_perm_unique t0); [apply rank_sorted | apply rank_sorted |].
    rewrite !rank_perm; symmetry; exact Hp.
Qed.

End CalApiFacts.

(** ** createBooking (legacy handler) *)
Module BookingFacts.
Import JsDate JsDateFacts CalApi Booking Inputs.

Definition validated (p : booking_params) : bool :=
  str_truthy (bp_name p) && str_truthy (bp_email p) && str_truthy (bp_timeZone p).


Lemma adjust_params_eventTypeId (p : booking_params) (a : Z) :
  bp_eventTypeId (adjust_params p a) = bp_eventTypeId p.
Proof. reflexivity. Qed.

(** Every validated request leaves [createBooking] with the [params] that
    DateRepair produced, whichever branch it takes afterwards. *)
Lemma createBooking_params (cfg : string) (P : cal_provider) (now st : Z) (p : booking_params) :
  bp_startTime p = Some st -> validated p = true ->
  snd (createBooking cfg P now p) =
  match repair_date now st with Some a => adjust_params p a | None => p end.
Proof.
  intros Hst Hv; unfold validated in Hv; unfold createBooking; rewrite Hst, Hv; simpl.
  set (params := match repair_date now st with Some a => adjust_params p a | None => p end).
  destruct (window st 1 1) as [sd ed].
  destruct (window st 3 7) as [sd3 ed3].
  repeat match goal with
  | |- context [match ?x with _ => _ end] => destruct x
  end; reflexivity.
Qed.

(** DateRepair of a start time in a past year, outside February 29. *)
Lemma repair_past_year (now t y m d : Z) :
  civil_from_days (Day t) = (y, m, d) -> y < getFullYear now -> ~ (m = 2 /\ d = 29) ->
  let A := setFullYear t (getFullYear now) in
  repair_date now t =
  Some (if A <=? now then setFullYear A (getFullYear now + 1) else A).
Proof.
  intros E Hy Hn A; unfold repair_date.
  assert (Gy : getFullYear t = y) by (unfold getFullYear; rewrite E; reflexivity).
  rewrite Gy; replace (y <? getFullYear now) with true by (symmetry; apply Z.ltb_lt; exact Hy).
  reflexivity.
Qed.

(** C5 (counterexample): a requested start of 2024-02-29 10:00 UTC, repaired
    in June 2025, becomes 2026-03-01 10:00: month and day are not kept. *)
Lemma repair_feb29_moves_to_march :
  repair_date now_jun_2025 start_feb29_2024 = Some (at_utc 2026 3 1 10 0) /\
  getFullYear start_feb29_2024 < getFullYear now_jun_2025 /\
  getMonth start_feb29_2024 = 1 /\ getDate start_feb29_2024 = 29 /\
  getMonth (at_utc 2026 3 1 10 0) = 2 /\ getDate (at_utc 2026 3 1 10 0) = 1.
Proof. vm_compute; repeat split; discriminate. Qed.

(** C5 (amended): when the requested start lies in a past year and is not
    February 29, DateRepair keeps month, day, hour and minute, and sets the
    year to the current year, or to the next one when the date in the
    current year is not after [now]. *)
Theorem repair_past_year_keeps_fields (now t : Z) :
  getFullYear t < getFullYear now -> ~ (getMonth t = 1 /\ getDate t = 29) ->
  exists a, repair_date now t = Some a /\
    getFullYear a =
      (if setFullYear t (getFullYear now) <=? now then getFullYear now + 1
       else getFullYear now) /\
    getFullYear a >= getFullYear now /\
    getMonth a = getMonth t /\ getDate a = getDate t /\
    getHours a = getHours t /\ getMinutes a = getMinutes t.
Proof.
  intros Hy Hn.
  destruct (civil_from_days (Day t)) as [[y m] d] eqn:E.
  assert (Gy : getFullYear t = y) by (unfold getFullYear; rewrite E; reflexivity).
  assert (Gm : getMonth t = m - 1) by (unfold getMonth; rewrite E; reflexivity).
  assert (Gd : getDate t = d) by (unfold getDate; rewrite E; reflexivity).
  assert (Hn' : ~ (m = 2 /\ d = 29)) by (rewrite Gm, Gd in Hn; lia).
  rewrite Gy in Hy.
  rewrite (repair_past_year now t y m d E Hy Hn').
  set (cur := getFullYear now).
  destruct (setFullYear_fields t cur y m d E Hn') as [E1 T1].
  set (A := setFullYear t cur) in *.
  destruct (A <=? now).
  - destruct (setFullYear_fields A (cur + 1) cur m d E1 Hn') as [E2 T2].
    eexists; split; [reflexivity|].
    unfold getFullYear, getMonth, getDate, getHours, getMinutes.
    rewrite E2, T2, T1, E; repeat split; lia.
  - eexists; split; [reflexivity|].
    unfold getFullYear, getMonth, getDate, getHours, getMinutes.
    rewrite E1, T1, E; repeat split; lia.
Qed.

Lemma repair_past_year_keeps_fields_witness :
  (getFullYear start_mar_2023 < getFullYear now_jun_2025 /\
   ~ (getMonth start_mar_2023 = 1 /\ getDate start_mar_2023 = 29)) /\
  exists a, repair_date now_jun_2025 start_mar_2023 = Some a /\
    getFullYear a =
      (if setFullYear start_mar_2023 (getFullYear now_jun_2025) <=? now_jun_2025
       then getFullYear now_jun_2025 + 1 else getFullYear now_jun_2025) /\
    getFullYear a >= getFullYear now_jun_2025 /\
    getMonth a = getMonth start_mar_2023 /\ getDate a = getDate start_mar_2023 /\
    getHours a = getHours start_mar_2023 /\ getMinutes a = getMinutes start_mar_2023.
Proof.
  split.
  - vm_compute; split; [reflexivity | intros [H _]; discriminate].
  - apply repair_past_year_keeps_fields;
      [vm_compute; reflexivity | vm_compute; intros [H _]; discriminate].
Defined.

(** C1: on a request for 2023-03-10 10:00 UTC handled in June 2025, DateRepair
    moves the start to 2026-03-10 10:00, yet the pre-flight query asks for
    2023-03-09 .. 2023-03-11 around the original date; a provider that offers
    exactly the repaired slot is therefore answered with a 409 conflict, while
    the window around the repaired date would be 2026-03-09 .. 2026-03-11. *)
Theorem createBooking_preflight_uses_original_start :
  repair_date now_jun_2025 start_mar_2023 = Some repaired_mar_2026 /\
  createBooking "2077162" offers_repaired_slot now_jun_2025 legacy_request =
    (inl (conflict_response [repaired_mar_2026]),
     [QAvailability "2077162" (2023, 3, 9) (2023, 3, 11) "UTC"],
     adjust_params legacy_request repaired_mar_2026) /\
  window repaired_mar_2026 1 1 = ((2026, 3, 9), (2026, 3, 11)) /\
  isTimeSlotAvailable [repaired_mar_2026] repaired_mar_2026 = true.
Proof.
  refine (conj _ (conj _ (conj _ _))); vm_compute; reflexivity.
Qed.

(** C2: whenever DateRepair moves a validated request's start time to [a],
    a supplied end time [e] leaves [createBooking] unchanged: the difference
    is taken after [bookingDate] has been reassigned to [a], so the end time
    is not shifted by the offset [a - st] applied to the start. *)
Theorem createBooking_end_time_not_shifted (cfg : string) (P : cal_provider)
    (now : Z) (p : booking_params) (st a e : Z) :
  bp_startTime p = Some st -> bp_endTime p = Some e -> validated p = true ->
  repair_date now st = Some a ->
  bp_startTime (snd (createBooking cfg P now p)) = Some a /\
  bp_endTime (snd (createBooking cfg P now p)) = Some e /\
  (a <> st -> bp_endTime (snd (createBooking cfg P now p)) <> Some (e + (a - st))).
Proof.
  intros Hst He Hv Hr.
  rewrite (createBooking_params cfg P now st p Hst Hv), Hr; simpl; rewrite He.
  split; [reflexivity|].
  assert (Ee : a + (e - a) = e) by lia; rewrite Ee.
  split; [reflexivity|].
  intros Ha Heq; injection Heq; lia.
Qed.

Lemma createBooking_end_time_not_shifted_witness :
  bp_startTime (snd (createBooking "2077162" offers_repaired_slot now_jun_2025 legacy_request))
    = Some repaired_mar_2026 /\
  bp_endTime (snd (createBooking "2077162" offers_repaired_slot now_jun_2025 legacy_request))
    = Some end_mar_2023 /\
  (repaired_mar_2026 <> start_mar_2023 ->
   bp_endTime (snd (createBooking "2077162" offers_repaired_slot now_jun_2025 legacy_request))
     <> Some (end_mar_2023 + (repaired_mar_2026 - start_mar_2023))).
Proof.
  apply (createBooking_end_time_not_shifted "2077162" offers_repaired_slot now_jun_2025
           legacy_request start_mar_2023 repaired_mar_2026 end_mar_2023);
    vm_compute; reflexivity.
Defined.




End BookingFacts.

(** ** The Lambda handler and the voice-platform envelope *)
Module DispatchFacts.
Import Dispatch Inputs.

(** C6: a key that the body carries with a falsy value is overwritten by the
    query: the body's empty [startDate] gives way to the query's. *)
Theorem merge_params_query_overwrites_body_key :
  has_key (spread body_empty_startDate) "startDate" = true /\
  merge_params body_empty_startDate (JStr "checkAvailability") query_startDate =
    [("startDate", JStr "2024-01-01"); ("endDate", JStr "2024-01-31");
     ("action", JStr "checkAvailability")].
Proof. split; vm_compute; reflexivity. Qed.

(** C7: [POST /findAvailability] resolves to [handleVapiWebhook], although
    [findAvailability] is one of [VALID_ACTIONS]: the path rule tests the
    shorter [knownActions] list. *)
Theorem resolve_action_findAvailability_path (JSON_parse : string -> option jsval) (w : world) :
  last_path_part (path find_availability_request) = "findAvailability" /\
  str_in "findAvailability" VALID_ACTIONS = true /\
  qget (query_of find_availability_request) "action" = None /\
  resolve_action find_availability_request (parse_body JSON_parse find_availability_request) w =
    (inl (JStr "handleVapiWebhook"), w).
Proof. repeat split; vm_compute; reflexivity. Qed.

(** [checkAvailability] catches its own errors: it never throws. *)
Lemma checkAvailability_returns (provider : provider_call -> outcome jsval)
    (params : jsval) (w : world) :
  exists r w', checkAvailability provider params w = (inl r, w').
Proof.
  unfold checkAvailability, try_catch.
  match goal with |- context [match ?m w with _ => _ end] => destruct (m w) as [[r|e] w'] end;
    eexists; eexists; reflexivity.
Qed.

(** C10: an [OPTIONS] event is answered at once with status 200, body
    [{success: true}] and the CORS headers, and leaves the world as it was:
    no body parsing, no action resolution, no provider call. *)
Theorem handler_options_preflight (JSON_parse : string -> option jsval)
    (provider : provider_call -> outcome jsval) (other_action : string -> jsval -> M response)
    (now_iso : jsval) (plus_14_days : jsval -> jsval) (ev : event) (w : world) :
  httpMethod ev = Some "OPTIONS" ->
  handler JSON_parse provider other_action now_iso plus_14_days ev w = (inl options_response, w) /\
  statusCode options_response = 200 /\
  body options_response = JObj [("success", JBool true)] /\
  incl cors_headers (headers options_response).
Proof.
  intros Hm; unfold handler, is_options; rewrite Hm; simpl.
  split; [reflexivity|]; split; [reflexivity|]; split; [reflexivity|].
  intros h Hh; simpl in *; tauto.
Qed.

Lemma handler_options_preflight_witness :
  httpMethod options_request = Some "OPTIONS" /\
  handler no_json provider_empty other_ok today_iso two_weeks_later options_request tenant_a_world
    = (inl options_response, tenant_a_world) /\
  statusCode options_response = 200 /\
  body options_response = JObj [("success", JBool true)] /\
  incl cors_headers (headers options_response).
Proof.
  split; [reflexivity|].
  apply (handler_options_preflight no_json provider_empty other_ok today_iso two_weeks_later
           options_request tenant_a_world); reflexivity.
Defined.

(** C9: a [getAvailableSlots] request that brings its own key writes it into
    the shared configuration, where it stays after the request. *)
Theorem getAvailableSlots_key_persists (JSON_parse : string -> option jsval)
    (provider : provider_call -> outcome jsval) (other_action : string -> jsval -> M response)
    (now_iso : jsval) (plus_14_days : jsval -> jsval) :
  cal_apiKey (w_config tenant_a_world) = JStr "cal_live_tenant_a" /\
  qget (query_of slots_request_tenant_b) "apiKey" = Some "cal_live_tenant_b" /\
  cal_apiKey (w_config (snd (handler JSON_parse provider other_action now_iso plus_14_days
                               slots_request_tenant_b tenant_a_world)))
    = JStr "cal_live_tenant_b".
Proof.
  split; [reflexivity|]; split; [reflexivity|].
  cbv.
  match goal with |- context [provider ?c] => destruct (provider c) end; reflexivity.
Qed.

(** C8 (counterexample): a voice-platform call to [checkAvailability]
    without dates fails validation, yet the failure arrives under
    [function_response.response] with [success: false]; there is no
    [function_response.error]. *)
Lemma handleFunctionCall_failure_under_response :
  exists r,
    fst (handleFunctionCall no_json provider_empty other_ok check_without_dates tenant_a_world)
      = inl r /\
    statusCode r = 200 /\
    jget (jget (jget (body r) "response") "function_response") "error" = JUndefined /\
    jget (jget (jget (jget (body r) "response") "function_response") "response") "success"
      = JBool false /\
    jget (jget (jget (jget (body r) "response") "function_response") "response") "error"
      = JStr "Start date is required".
Proof.
  eexists; split; [vm_compute; reflexivity|].
  vm_compute; repeat split.
Qed.

(** C8 (amended): for every call body that is an object, [handleFunctionCall]
    answers with status 200 and the [function_response] envelope.  The
    payload is [response] when the dispatched operation returns, even with
    its own failure inside, and [error] with the message only when the
    operation throws; [checkAvailability] never throws. *)
Theorem handleFunctionCall_envelope (JSON_parse : string -> option jsval)
    (provider : provider_call -> outcome jsval) (other_action : string -> jsval -> M response)
    (o : obj) (w : world) :
  let functionCall := get o "functionCall" in
  let functionName := js_or (get o "function") (oprop functionCall "name") in
  let parameters :=
    if truthy (get o "parameters") then get o "parameters"
    else if truthy (oprop functionCall "parameters") then oprop functionCall "parameters"
    else if truthy (oprop functionCall "arguments")
    then parse_arguments JSON_parse (oprop functionCall "arguments")
    else JUndefined in
  (match dispatch_function provider other_action functionName parameters w with
   | (inl _, w') =>
       exists v, handleFunctionCall JSON_parse provider other_action (JObj o) w =
                 (inl (mkResponse 200 [] (envelope functionName ("response", v))), w')
   | (inr e, w') =>
       handleFunctionCall JSON_parse provider other_action (JObj o) w =
       (inl (mkResponse 200 [] (envelope functionName ("error", JStr (err_message e)))), w')
   end) /\
  (forall params w0, exists r w1,
     dispatch_function provider other_action (JStr "checkAvailability") params w0 = (inl r, w1)).
Proof.
  intros functionCall functionName parameters; split.
  - unfold handleFunctionCall, bind, try_catch; simpl.
    fold functionCall functionName parameters.
    destruct (dispatch_function provider other_action functionName parameters w)
      as [[r|e] w']; [eexists|]; reflexivity.
  - intros params w0; apply checkAvailability_returns.
Qed.

End DispatchFacts.

(** ** More of the dispatcher: parameter merge, path segments, headers *)
Module HandlerFacts.
Import Dispatch Views.

Lemma get_set_eq (o : obj) (k : string) (v : jsval) : get (set o k v) k = v.
Proof.
  induction o as [|[k' v'] o IH]; simpl.
  - rewrite String.eqb_refl; reflexivity.
  - destruct (String.eqb_spec k k') as [->|Hne]; simpl.
    + rewrite String.eqb_refl; reflexivity.
    + apply String.eqb_neq in Hne; rewrite Hne; exact IH.
Qed.

Lemma get_set_neq (o : obj) (k k2 : string) (v : jsval) :
  k2 <> k -> get (set o k v) k2 = get o k2.
Proof.
  intros Hne; induction o as [|[k' v'] o IH]; simpl.
  - apply String.eqb_neq in Hne; rewrite Hne; reflexivity.
  - destruct (String.eqb_spec k k') as [->|Hne']; simpl.
    + apply String.eqb_neq in Hne; rewrite Hne; reflexivity.
    + destruct (String.eqb k2 k'); [reflexivity | exact IH].
Qed.

Lemma merge_params_unfold (body action : jsval) (q : list (string * string)) :
  merge_params body action q =
  fold_left merge_step q
    (if truthy (get (spread body) "action") then spread body
     else set (spread body) "action" action).
Proof. reflexivity. Qed.

Lemma fold_merge_keeps (k : string) (q : list (string * string)) (p : obj) :
  truthy (get p k) = true -> get (fold_left merge_step q p) k = get p k.
Proof.
  revert p; induction q as [|[k' v] q IH]; intros p Hk; simpl; [reflexivity|].
  unfold merge_step at 2; simpl.
  destruct (truthy (get p k')) eqn:E; [apply IH, Hk|].
  destruct (String.eqb_spec k k') as [->|Hne]; [congruence|].
  rewrite IH; rewrite get_set_neq; auto.
Qed.

Lemma fold_merge_fills (k v : string) (q : list (string * string)) (p : obj) :
  truthy (get p k) = false -> qget q k = Some v -> str_truthy v = true ->
  get (fold_left merge_step q p) k = JStr v.
Proof.
  revert p; induction q as [|[k' v'] q IH]; intros p Hk Hq Hv; simpl in *; [discriminate|].
  unfold merge_step at 2; simpl.
  destruct (String.eqb_spec k k') as [->|Hne].
  - injection Hq as <-; rewrite Hk.
    rewrite fold_merge_keeps; rewrite get_set_eq; [reflexivity | exact Hv].
  - destruct (truthy (get p k')); [apply IH; assumption|].
    apply IH; [rewrite get_set_neq; auto | exact Hq | exact Hv].
Qed.

(** X1: for a body that is a plain object, the merge keeps every own body
    value that is truthy: no query parameter replaces it. *)
Theorem merge_params_keeps_truthy_body (o : obj) (action : jsval) (q : list (string * string))
    (k : string) :
  keys_unique o = true -> truthy (get o k) = true ->
  get (merge_params (JObj o) action q) k = get o k.
Proof.
  intros _ Hk; rewrite merge_params_unfold, fold_merge_keeps; cbn [spread].
  - destruct (truthy (get o "action")) eqn:E; [reflexivity|].
    destruct (String.eqb_spec k "action") as [->|Hne]; [congruence|].
    apply get_set_neq; exact Hne.
  - destruct (truthy (get o "action")) eqn:E; [exact Hk|].
    destruct (String.eqb_spec k "action") as [->|Hne]; [congruence|].
    rewrite get_set_neq; assumption.
Qed.

Lemma merge_params_keeps_truthy_body_witness :
  keys_unique [("startDate", JStr "2024-02-01")] = true /\
  truthy (get [("startDate", JStr "2024-02-01")] "startDate") = true /\
  get (merge_params (JObj [("startDate", JStr "2024-02-01")]) (JStr "checkAvailability")
         [("startDate", "2024-01-01")]) "startDate"
  = get [("startDate", JStr "2024-02-01")] "startDate".
Proof.
  refine (conj eq_refl (conj eq_refl _)).
  apply merge_params_keeps_truthy_body; reflexivity.
Defined.

(** X2: for a body that is a plain object, a key other than [action] and
    not inherited from [Object.prototype], whose own body value is falsy or
    absent, takes the value of the query entry for it, when that value is
    not empty. *)
Theorem merge_params_fills_from_query (o : obj) (action : jsval) (q : list (string * string))
    (k v : string) :
  keys_unique o = true -> k <> "action" -> str_in k object_prototype_keys = false ->
  truthy (get o k) = false ->
  qget q k = Some v -> str_truthy v = true ->
  get (merge_params (JObj o) action q) k = JStr v.
Proof.
  intros _ Ha _ Hk Hq Hv; rewrite merge_params_unfold; apply fold_merge_fills; auto; cbn [spread].
  destruct (truthy (get o "action")); [exact Hk|].
  rewrite get_set_neq; assumption.
Qed.

Lemma merge_params_fills_from_query_witness :
  keys_unique [("startDate", JStr "2024-02-01")] = true /\
  "endDate" <> "action" /\
  str_in "endDate" object_prototype_keys = false /\
  truthy (get [("startDate", JStr "2024-02-01")] "endDate") = false /\
  qget [("endDate", "2024-02-07")] "endDate" = Some "2024-02-07" /\
  str_truthy "2024-02-07" = true /\
  get (merge_params (JObj [("startDate", JStr "2024-02-01")]) (JStr "checkAvailability")
         [("endDate", "2024-02-07")]) "endDate" = JStr "2024-02-07".
Proof.
  split; [reflexivity|]; split; [discriminate|]; split; [reflexivity|].
  split; [reflexivity|]; split; [reflexivity|]; split; [reflexivity|].
  apply merge_params_fills_from_query;
    [reflexivity | discriminate | reflexivity | reflexivity | reflexivity | reflexivity].
Defined.

(** X3: [params.action] is the body's [action] when truthy, otherwise the
    resolved action; an [action] query parameter never replaces it when the
    resolved action is truthy. *)
Theorem merge_params_action (body action : jsval) (q : list (string * string)) :
  truthy action = true ->
  get (merge_params body action q) "action" = js_or (get (spread body) "action") action.
Proof.
  intros Ha; rewrite merge_params_unfold; unfold js_or.
  destruct (truthy (get (spread body) "action")) eqn:E.
  - apply fold_merge_keeps; exact E.
  - rewrite fold_merge_keeps; rewrite get_set_eq; [reflexivity | exact Ha].
Qed.

Lemma merge_params_action_witness :
  truthy (JStr "getAvailableSlots") = true /\
  get (merge_params (JObj []) (JStr "getAvailableSlots") [("action", "createBooking")]) "action"
  = js_or (get (spread (JObj [])) "action") (JStr "getAvailableSlots").
Proof.
  split; [reflexivity|].
  apply merge_params_action; reflexivity.
Defined.

Lemma split_slash_aux_snoc (s cur : string) :
  split_slash_aux (s ++ "/") cur = split_slash_aux s cur ++ [EmptyString].
Proof.
  revert cur; induction s as [|c s IH]; intros cur; simpl; [reflexivity|].
  destruct (Ascii.eqb c "/"%char); simpl; rewrite IH; reflexivity.
Qed.

(** X4: a leading or a trailing slash does not change the path segments the
    dispatcher sees. *)
Theorem path_parts_outer_slashes (p : string) :
  path_parts ("/" ++ p) = path_parts p /\ path_parts (p ++ "/") = path_parts p.
Proof.
  unfold path_parts; split.
  - reflexivity.
  - rewrite split_slash_aux_snoc, filter_app; simpl; rewrite app_nil_r; reflexivity.
Qed.

Lemma qget_set_header_eq (h : list (string * string)) (k v : string) :
  qget (set_header h k v) k = Some v.
Proof.
  induction h as [|[k' v'] h IH]; simpl.
  - rewrite String.eqb_refl; reflexivity.
  - destruct (String.eqb_spec k k') as [->|Hne]; simpl.
    + rewrite String.eqb_refl; reflexivity.
    + apply String.eqb_neq in Hne; rewrite Hne; exact IH.
Qed.

Lemma qget_set_header_neq (h : list (string * string)) (k k2 v : string) :
  k2 <> k -> qget (set_header h k v) k2 = qget h k2.
Proof.
  intros Hne; induction h as [|[k' v'] h IH]; simpl.
  - apply String.eqb_neq in Hne; rewrite Hne; reflexivity.
  - destruct (String.eqb_spec k k') as [->|Hne']; simpl.
    + apply String.eqb_neq in Hne; rewrite Hne; reflexivity.
    + destruct (String.eqb k2 k'); [reflexivity | exact IH].
Qed.

(** X5: the handler always answers (it never rejects), and every answer
    carries [Access-Control-Allow-Origin: *], on the success and on the
    error path. *)
Theorem handler_answers_with_allow_origin (JSON_parse : string -> option jsval)
    (provider : provider_call -> outcome jsval) (other_action : string -> jsval -> M response)
    (now_iso : jsval) (plus_14_days : jsval -> jsval) (ev : event) (w : world) :
  exists r w',
    handler JSON_parse provider other_action now_iso plus_14_days ev w = (inl r, w') /\
    qget (headers r) "Access-Control-Allow-Origin" = Some "*".
Proof.
  unfold handler.
  destruct (is_options ev); [do 2 eexists; split; reflexivity|].
  unfold try_catch, bind.
  destruct (resolve_action ev (parse_body JSON_parse ev) w) as [[a|e] w1];
    [|do 2 eexists; split; reflexivity].
  destruct (dispatch provider other_action now_iso plus_14_days a
              (JObj (merge_params (parse_body JSON_parse ev) a (query_of ev))) w1)
    as [[r|e] w2]; [|do 2 eexists; split; reflexivity].
  do 2 eexists; split; [reflexivity|]; unfold add_cors; cbn [headers].
  rewrite !qget_set_header_neq by discriminate; apply qget_set_header_eq.
Qed.

Lemma dispatch_invalid (provider : provider_call -> outcome jsval)
    (other_action : string -> jsval -> M response) (now_iso : jsval)
    (plus_14_days : jsval -> jsval) (a params : jsval) :
  (match a with JStr s => str_in s VALID_ACTIONS | _ => false end) = false ->
  dispatch provider other_action now_iso plus_14_days a params =
  throw (ValidationError "Invalid action specified" "action").
Proof.
  destruct a as [| | | |s| |]; intros H; try reflexivity.
  unfold str_in, VALID_ACTIONS in H; simpl in H.
  repeat match goal with H : _ || _ = false |- _ => apply orb_false_iff in H as [? H] end.
  unfold dispatch, str_in; simpl.
  repeat match goal with H : String.eqb s ?x = false |- _ => rewrite H; clear H end.
  reflexivity.
Qed.

(** X6: when the resolved action is a string that is not one of the ten
    [VALID_ACTIONS] (an unknown query [action], or a body [action]), the
    handler answers 400 [Invalid action specified] for field [action],
    leaves the world as it was, and its headers lack
    [Access-Control-Allow-Methods].  (A string action passes the log line's
    template coercion unchanged.) *)
Theorem handler_invalid_action (JSON_parse : string -> option jsval)
    (provider : provider_call -> outcome jsval) (other_action : string -> jsval -> M response)
    (now_iso : jsval) (plus_14_days : jsval -> jsval) (ev : event) (w : world) (s : string) :
  is_options ev = false ->
  resolve_action ev (parse_body JSON_parse ev) w = (inl (JStr s), w) ->
  str_in s VALID_ACTIONS = false ->
  handler JSON_parse provider other_action now_iso plus_14_days ev w =
    (inl (handleError (ValidationError "Invalid action specified" "action")), w) /\
  statusCode (handleError (ValidationError "Invalid action specified" "action")) = 400 /\
  qget (headers (handleError (ValidationError "Invalid action specified" "action")))
    "Access-Control-Allow-Methods" = None.
Proof.
  intros Ho Hr Ha.
  unfold handler; rewrite Ho; unfold try_catch, bind at 1; rewrite Hr.
  unfold bind at 1; rewrite (dispatch_invalid provider other_action now_iso plus_14_days (JStr s) _ Ha).
  refine (conj _ (conj _ _)); reflexivity.
Qed.

Lemma handler_invalid_action_witness :
  let ev := mkEvent (Some "POST") None None
              (Some (RawValue (JObj [("action", JStr "bookMeeting")]))) in
  (is_options ev = false /\
   resolve_action ev (parse_body Inputs.no_json ev) Inputs.tenant_a_world
     = (inl (JStr "bookMeeting"), Inputs.tenant_a_world) /\
   str_in "bookMeeting" VALID_ACTIONS = false) /\
  (handler Inputs.no_json Inputs.provider_empty Inputs.other_ok Inputs.today_iso
     Inputs.two_weeks_later ev Inputs.tenant_a_world =
     (inl (handleError (ValidationError "Invalid action specified" "action")),
      Inputs.tenant_a_world) /\
   statusCode (handleError (ValidationError "Invalid action specified" "action")) = 400 /\
   qget (headers (handleError (ValidationError "Invalid action specified" "action")))
     "Access-Control-Allow-Methods" = None).
Proof.
  intros ev; split; [split; [reflexivity | split; vm_compute; reflexivity]|].
  apply (handler_invalid_action Inputs.no_json Inputs.provider_empty Inputs.other_ok
           Inputs.today_iso Inputs.two_weeks_later ev Inputs.tenant_a_world "bookMeeting");
    vm_compute; reflexivity.
Defined.

(** X7: a request whose body is the JSON text [null], with no path segment
    and no [action] query parameter, gets status 500 with a [TypeError]:
    reading [body.action] on [null] throws. *)
Theorem handler_null_json_body (JSON_parse : string -> option jsval)
    (provider : provider_call -> outcome jsval) (other_action : string -> jsval -> M response)
    (now_iso : jsval) (plus_14_days : jsval -> jsval) (ev : event) (w : world) (text : string) :
  is_options ev = false ->
  ev_body ev = Some (RawString text) -> str_truthy text = true -> JSON_parse text = Some JNull ->
  last_path_part (path ev) = EmptyString ->
  str_truthy (match qget (query_of ev) "action" with Some a => a | None => EmptyString end) = false ->
  exists r,
    handler JSON_parse provider other_action now_iso plus_14_days ev w = (inl r, w) /\
    statusCode r = 500 /\ jget (body r) "success" = JBool false /\
    jget (body r) "type" = JStr "TypeError".
Proof.
  intros Ho Hb Ht Hp Hl Hq.
  assert (Hc : match path ev with Some p => String.eqb p "/createBooking" | None => false end = false).
  { destruct (path ev) as [p|] eqn:E; [|reflexivity].
    destruct (String.eqb_spec p "/createBooking") as [->|]; [|reflexivity].
    vm_compute in Hl; discriminate Hl. }
  unfold handler; rewrite Ho; unfold try_catch, bind at 1, resolve_action.
  rewrite Hl, Hc; change (String.eqb EmptyString "createBooking") with false; simpl orb.
  rewrite Hq; cbv iota beta.
  unfold parse_body; rewrite Hb, Ht, Hp.
  eexists; split; [reflexivity|]; split; [reflexivity|]; split; reflexivity.
Qed.

Lemma handler_null_json_body_witness :
  let ev := mkEvent (Some "POST") None None (Some (RawString "null")) in
  let parse := fun s : string => if String.eqb s "null" then Some JNull else None in
  (is_options ev = false /\ ev_body ev = Some (RawString "null") /\
   str_truthy "null" = true /\ parse "null" = Some JNull /\
   last_path_part (path ev) = EmptyString /\
   str_truthy (match qget (query_of ev) "action" with Some a => a | None => EmptyString end)
     = false) /\
  exists r,
    handler parse Inputs.provider_empty Inputs.other_ok Inputs.today_iso Inputs.two_weeks_later
      ev Inputs.tenant_a_world = (inl r, Inputs.tenant_a_world) /\
    statusCode r = 500 /\ jget (body r) "success" = JBool false /\
    jget (body r) "type" = JStr "TypeError".
Proof.
  intros ev parse.
  split; [repeat split|].
  apply (handler_null_json_body parse Inputs.provider_empty Inputs.other_ok Inputs.today_iso
           Inputs.two_weeks_later ev Inputs.tenant_a_world "null"); reflexivity.
Defined.

(** X8: [checkAvailability] never writes the shared configuration, and it
    makes at most one provider call, whatever its parameters and the
    provider's answer. *)
Theorem checkAvailability_frame (provider : provider_call -> outcome jsval)
    (params : jsval) (w : world) :
  w_config (snd (checkAvailability provider params w)) = w_config w /\
  exists l, w_calls (snd (checkAvailability provider params w)) = w_calls w ++ l /\
            (List.length l <= 1)%nat.
Proof.
  unfold checkAvailability, try_catch, bind, prop, get_config, call, ret, throw.
  destruct params as [| | | | | |o]; cbn;
    try (split; [reflexivity | exists []; rewrite app_nil_r; split; [reflexivity | cbn; lia]]).
  destruct (truthy (get o "startDate")); cbn;
    [|split; [reflexivity | exists []; rewrite app_nil_r; split; [reflexivity | cbn; lia]]].
  destruct (truthy (get o "endDate")); cbn;
    [|split; [reflexivity | exists []; rewrite app_nil_r; split; [reflexivity | cbn; lia]]].
  match goal with |- context [provider ?c] => destruct (provider c); cbn end;
    (split; [reflexivity | eexists; split; [reflexivity | cbn; lia]]).
Qed.

(** X9: [checkAvailability] without a (truthy) [startDate] answers 400
    [Start date is required] for field [startDate], before any provider
    call and without touching the world. *)
Theorem checkAvailability_requires_startDate (provider : provider_call -> outcome jsval)
    (o : obj) (w : world) :
  truthy (get o "startDate") = false ->
  checkAvailability provider (JObj o) w =
    (inl (handleError (ValidationError "Start date is required" "startDate")), w).
Proof.
  intros H; unfold checkAvailability, try_catch, bind, prop, ret; cbn; rewrite H; reflexivity.
Qed.

Lemma checkAvailability_requires_startDate_witness :
  truthy (get [("endDate", JStr "2025-07-08")] "startDate") = false /\
  checkAvailability Inputs.provider_empty (JObj [("endDate", JStr "2025-07-08")])
    Inputs.tenant_a_world =
  (inl (handleError (ValidationError "Start date is required" "startDate")),
   Inputs.tenant_a_world).
Proof.
  split; [reflexivity|].
  apply checkAvailability_requires_startDate; reflexivity.
Defined.

Lemma js_strict_eqb_eq (a b : jsval) : js_strict_eqb a b = true -> a = b.
Proof.
  destruct a, b; simpl; intros H; try discriminate; try reflexivity.
  - apply Bool.eqb_prop in H; subst; reflexivity.
  - apply Z.eqb_eq in H; subst; reflexivity.
  - apply String.eqb_eq in H; subst; reflexivity.
Qed.

Lemma set_apiKey_same (c : config) : set_apiKey c (cal_apiKey c) = c.
Proof. destruct c; reflexivity. Qed.

(** X10: after [getAvailableSlots] on an object that names an end
    ([endTime], [endDate] or [end], so that no default end date is
    computed), the shared configuration's API key is
    [params.apiKey || params.api_key || previous key], whether the request
    then succeeds, fails validation or gets a provider error; nothing else
    of the configuration changes. *)
Theorem getAvailableSlots_final_key (provider : provider_call -> outcome jsval)
    (now_iso : jsval) (plus_14_days : jsval -> jsval) (o : obj) (w : world) :
  truthy (js_or (get o "endTime") (js_or (get o "endDate") (get o "end"))) = true ->
  w_config (snd (getAvailableSlots provider now_iso plus_14_days (JObj o) w)) =
  set_apiKey (w_config w)
    (js_or (get o "apiKey") (js_or (get o "api_key") (cal_apiKey (w_config w)))).
Proof.
  intros _.
  unfold getAvailableSlots, try_catch, bind, prop, get_config, put_config, call, ret, throw.
  cbn.
  set (k := js_or (get o "apiKey") (js_or (get o "api_key") (cal_apiKey (w_config w)))).
  assert (Hk : truthy k && negb (js_strict_eqb k (cal_apiKey (w_config w))) = false ->
               w_config w = set_apiKey (w_config w) k).
  { intros H; apply andb_false_iff in H as [H|H].
    - unfold k, js_or in *.
      destruct (truthy (get o "apiKey")) eqn:E1; [congruence|].
      destruct (truthy (get o "api_key")) eqn:E2; [congruence|].
      symmetry; apply set_apiKey_same.
    - apply negb_false_iff, js_strict_eqb_eq in H; rewrite H; symmetry; apply set_apiKey_same. }
  destruct (truthy k && negb (js_strict_eqb k (cal_apiKey (w_config w)))) eqn:E; cbn.
  - repeat match goal with
    | |- context [if ?b then _ else _] => destruct b
    | |- context [match provider ?c with _ => _ end] => destruct (provider c)
    end; reflexivity.
  - rewrite <- (Hk eq_refl).
    repeat match goal with
    | |- context [if ?b then _ else _] => destruct b
    | |- context [match provider ?c with _ => _ end] => destruct (provider c)
    end; reflexivity.
Qed.

Lemma getAvailableSlots_final_key_witness :
  truthy (js_or (get [("endDate", JStr "2025-07-08"); ("apiKey", JStr "cal_live_tenant_b")] "endTime")
            (js_or (get [("endDate", JStr "2025-07-08"); ("apiKey", JStr "cal_live_tenant_b")] "endDate")
                   (get [("endDate", JStr "2025-07-08"); ("apiKey", JStr "cal_live_tenant_b")] "end")))
  = true /\
  w_config (snd (getAvailableSlots Inputs.provider_empty Inputs.today_iso Inputs.two_weeks_later
                   (JObj [("endDate", JStr "2025-07-08"); ("apiKey", JStr "cal_live_tenant_b")])
                   Inputs.tenant_a_world)) =
  set_apiKey (w_config Inputs.tenant_a_world)
    (js_or (get [("endDate", JStr "2025-07-08"); ("apiKey", JStr "cal_live_tenant_b")] "apiKey")
       (js_or (get [("endDate", JStr "2025-07-08"); ("apiKey", JStr "cal_live_tenant_b")] "api_key")
          (cal_apiKey (w_config Inputs.tenant_a_world)))).
Proof.
  split; [reflexivity|].
  apply getAvailableSlots_final_key; reflexivity.
Defined.

(** X11: [findAvailability] checks [params.id] (line 560) before it
    writes [params.apiKey] into the shared configuration (lines 570-573),
    and [calApi.getAvailabilityV1] checks its id again after that write.
    So with a truthy [apiKey]: a falsy [id] answers 400 [Availability ID is
    required] with the world unchanged, while the truthy [id] ["0"], which
    [parseInt] turns into 0, answers the same 400 with the key written and
    no provider call. *)
Theorem findAvailability_requires_id (provider : provider_call -> outcome jsval)
    (o : obj) (w : world) :
  truthy (get o "apiKey") = true ->
  (truthy (get o "id") = false ->
   findAvailability provider (JObj o) w =
     (inl (handleError (ValidationError "Availability ID is required" "id")), w)) /\
  (get o "id" = JStr "0" ->
   findAvailability provider (JObj o) w =
     (inl (handleError (ValidationError "Availability ID is required" "id")),
      mkWorld (set_apiKey (w_config w) (get o "apiKey")) (w_calls w))).
Proof.
  intros Hk; split; intros H;
    unfold findAvailability, try_catch, bind, prop, ret, get_config, put_config, throw; cbn;
    rewrite H; cbn; [reflexivity|].
  rewrite Hk; reflexivity.
Qed.

Lemma findAvailability_requires_id_witness :
  truthy (get [("id", JNum 0); ("apiKey", JStr "cal_live_tenant_b")] "apiKey") = true /\
  (truthy (get [("id", JNum 0); ("apiKey", JStr "cal_live_tenant_b")] "id") = false ->
   findAvailability Inputs.provider_empty
     (JObj [("id", JNum 0); ("apiKey", JStr "cal_live_tenant_b")]) Inputs.tenant_a_world =
   (inl (handleError (ValidationError "Availability ID is required" "id")),
    Inputs.tenant_a_world)) /\
  (get [("id", JNum 0); ("apiKey", JStr "cal_live_tenant_b")] "id" = JStr "0" ->
   findAvailability Inputs.provider_empty
     (JObj [("id", JNum 0); ("apiKey", JStr "cal_live_tenant_b")]) Inputs.tenant_a_world =
   (inl (handleError (ValidationError "Availability ID is required" "id")),
    mkWorld (set_apiKey (w_config Inputs.tenant_a_world)
               (get [("id", JNum 0); ("apiKey", JStr "cal_live_tenant_b")] "apiKey"))
            (w_calls Inputs.tenant_a_world))).
Proof.
  split; [reflexivity|].
  apply findAvailability_requires_id; reflexivity.
Defined.

Lemma dispatch_function_unknown (provider : provider_call -> outcome jsval)
    (other_action : string -> jsval -> M response) (name params : jsval) :
  (match name with
   | JStr f => str_in f ["checkAvailability"; "createBooking"; "rescheduleBooking";
                         "cancelBooking"; "getBookingDetails"]
   | _ => false
   end) = false ->
  dispatch_function provider other_action name params =
  throw (ValidationError ("Unknown function: " ++ js_to_string name)%string "function").
Proof.
  destruct name as [| | | |f| |]; intros H; try reflexivity.
  unfold str_in in H; simpl in H.
  repeat match goal with H : _ || _ = false |- _ => apply orb_false_iff in H as [? H] end.
  unfold dispatch_function, str_in; simpl.
  repeat match goal with H : String.eqb f ?x = false |- _ => rewrite H; clear H end.
  reflexivity.
Qed.

(** X12: a voice-platform call whose function name (from [function], else
    [functionCall.name]) is none of the five operations, and is a string,
    a boolean, [null] or [undefined], is answered 200 with
    [function_response.error = "Unknown function: <name>"] ([undefined] when
    no name is given), and nothing else happens. *)
Theorem handleFunctionCall_unknown_function (JSON_parse : string -> option jsval)
    (provider : provider_call -> outcome jsval) (other_action : string -> jsval -> M response)
    (o : obj) (w : world) :
  let name := js_or (get o "function") (oprop (get o "functionCall") "name") in
  prints_as_in_js name = true ->
  (match name with
   | JStr f => str_in f ["checkAvailability"; "createBooking"; "rescheduleBooking";
                         "cancelBooking"; "getBookingDetails"]
   | _ => false
   end) = false ->
  handleFunctionCall JSON_parse provider other_action (JObj o) w =
  (inl (mkResponse 200 []
          (envelope name ("error", JStr ("Unknown function: " ++ js_to_string name)%string))), w).
Proof.
  intros name _ H.
  unfold handleFunctionCall, bind at 1 2 3, prop at 1 2 3, ret at 1 2 3, try_catch; cbn beta iota.
  fold name; unfold bind.
  rewrite (dispatch_function_unknown provider other_action name _ H).
  reflexivity.
Qed.

Lemma handleFunctionCall_unknown_function_witness :
  prints_as_in_js (js_or (get [("functionCall", JObj [("arguments", JStr "{}")])] "function")
    (oprop (get [("functionCall", JObj [("arguments", JStr "{}")])] "functionCall") "name"))
  = true /\
  (match js_or (get [("functionCall", JObj [("arguments", JStr "{}")])] "function")
           (oprop (get [("functionCall", JObj [("arguments", JStr "{}")])] "functionCall") "name")
   with
   | JStr f => str_in f ["checkAvailability"; "createBooking"; "rescheduleBooking";
                         "cancelBooking"; "getBookingDetails"]
   | _ => false
   end) = false /\
  handleFunctionCall Inputs.no_json Inputs.provider_empty Inputs.other_ok
    (JObj [("functionCall", JObj [("arguments", JStr "{}")])]) Inputs.tenant_a_world =
  (inl (mkResponse 200 []
          (envelope JUndefined ("error", JStr "Unknown function: undefined"))),
   Inputs.tenant_a_world).
Proof.
  split; [reflexivity|]; split; [reflexivity|].
  exact (handleFunctionCall_unknown_function Inputs.no_json Inputs.provider_empty Inputs.other_ok
           [("functionCall", JObj [("arguments", JStr "{}")])] Inputs.tenant_a_world eq_refl eq_refl).
Defined.

(** X13: when [createBooking] answers 409 with a truthy [alternativeSlots],
    the voice platform gets status 200 and a [response] of exactly
    [success: false] and the [error], [alternativeSlots] and [message] of
    that answer. *)
Theorem handleFunctionCall_conflict_alternatives (JSON_parse : string -> option jsval)
    (provider : provider_call -> outcome jsval) (other_action : string -> jsval -> M response)
    (o : obj) (w w' : world) (r : response) :
  get o "function" = JStr "createBooking" ->
  truthy (get o "parameters") = true ->
  other_action "createBooking" (get o "parameters") w = (inl r, w') ->
  statusCode r = 409 -> truthy (jget (body r) "alternativeSlots") = true ->
  handleFunctionCall JSON_parse provider other_action (JObj o) w =
  (inl (mkResponse 200 []
          (envelope (JStr "createBooking")
             ("response", JObj [("success", JBool false);
                                ("error", jget (body r) "error");
                                ("alternativeSlots", jget (body r) "alternativeSlots");
                                ("message", jget (body r) "message")]))), w').
Proof.
  intros Hf Hp Hr Hs Ha.
  unfold handleFunctionCall, bind, prop, ret, try_catch; cbn beta iota.
  rewrite Hf, Hp; cbn.
  rewrite Hr, Hs; cbn.
  destruct (body r) as [| | | | | |b] eqn:Eb; try discriminate Ha.
  cbn in Ha |- *; rewrite Ha; reflexivity.
Qed.

Lemma handleFunctionCall_conflict_alternatives_witness :
  let o := [("function", JStr "createBooking"); ("parameters", JObj [("name", JStr "Jane")])] in
  let r := Booking.conflict_response [Inputs.at_utc 2025 7 1 9 0] in
  let op := fun (_ : string) (_ : jsval) => ret r in
  (get o "function" = JStr "createBooking" /\ truthy (get o "parameters") = true /\
   op "createBooking" (get o "parameters") Inputs.tenant_a_world = (inl r, Inputs.tenant_a_world) /\
   statusCode r = 409 /\ truthy (jget (body r) "alternativeSlots") = true) /\
  handleFunctionCall Inputs.no_json Inputs.provider_empty op (JObj o) Inputs.tenant_a_world =
  (inl (mkResponse 200 []
          (envelope (JStr "createBooking")
             ("response", JObj [("success", JBool false);
                                ("error", jget (body r) "error");
                                ("alternativeSlots", jget (body r) "alternativeSlots");
                                ("message", jget (body r) "message")]))), Inputs.tenant_a_world).
Proof.
  intros o r op.
  split; [repeat split|].
  apply handleFunctionCall_conflict_alternatives; reflexivity.
Defined.

End HandlerFacts.

(** ** The operations behind the dispatcher *)
Module OpsFacts.
Import Dispatch Ops Views.

Section OpsProofs.
Variable JSON_parse : string -> option jsval.
Variable provider : provider_call -> outcome jsval.
Variable parseInt_str : string -> jsval.
Variable end_after : jsval -> jsval -> M jsval.
Variable defaultDuration : jsval.

(** X14: a legacy-shape [createBooking] call reports the first missing field
    among [name], [email], [startTime], [eventTypeId], [timeZone], in that
    order, as a 400 [ValidationError] for that field, before any provider
    call and without touching the world. *)
Theorem createBookingV1_first_missing_field (ext : ext_call -> M jsval) (o : obj) (w : world)
    (k m : string) :
  passthrough o = false -> first_missing o = Some (k, m) ->
  createBookingV1 ext parseInt_str end_after defaultDuration (JObj o) w =
  (inl (handleError (ValidationError m k)), w).
Proof.
  intros Hp Hm.
  unfold createBookingV1, try_catch, bind, prop, ret, throw, get_config; cbn.
  unfold passthrough in Hp; rewrite Hp.
  unfold first_missing, legacy_required in Hm; cbn in Hm.
  destruct (truthy (get o "name")); cbn in Hm |- *; [|injection Hm as <- <-; reflexivity].
  destruct (truthy (get o "email")); cbn in Hm |- *; [|injection Hm as <- <-; reflexivity].
  destruct (truthy (get o "startTime")); cbn in Hm |- *; [|injection Hm as <- <-; reflexivity].
  destruct (truthy (get o "eventTypeId")); cbn in Hm |- *; [|injection Hm as <- <-; reflexivity].
  destruct (truthy (get o "timeZone")); cbn in Hm |- *; [discriminate|injection Hm as <- <-; reflexivity].
Qed.

(** X15: on the legacy shape, once validation passes and an end time is given,
    every failure of the provider call, a 409 conflict included, becomes the
    [ReferenceError] of the undeclared [ApiError]: a 500 with the message
    "ApiError is not defined". *)
Theorem createBookingV1_provider_error_masked (ext : ext_call -> M jsval) (o : obj)
    (w : world) :
  passthrough o = false -> first_missing o = None -> truthy (get o "endTime") = true ->
  (forall d w0, exists e w1, ext (XCreateBooking d) w0 = (inr e, w1)) ->
  exists w',
    createBookingV1 ext parseInt_str end_after defaultDuration (JObj o) w =
    (inl (mkResponse 500 [("Content-Type", "application/json");
                          ("Access-Control-Allow-Origin", "*")]
            (JObj [("success", JBool false); ("error", JStr "ApiError is not defined");
                   ("type", JStr "ReferenceError")])), w').
Proof.
  intros Hp Hm He Hext.
  unfold createBookingV1, try_catch, bind, prop, ret, throw, get_config; cbn.
  unfold passthrough in Hp; rewrite Hp.
  unfold first_missing, legacy_required in Hm; cbn in Hm.
  destruct (truthy (get o "name")); cbn in Hm |- *; [|discriminate].
  destruct (truthy (get o "email")); cbn in Hm |- *; [|discriminate].
  destruct (truthy (get o "startTime")); cbn in Hm |- *; [|discriminate].
  destruct (truthy (get o "eventTypeId")); cbn in Hm |- *; [|discriminate].
  destruct (truthy (get o "timeZone")); cbn in Hm |- *; [|discriminate].
  rewrite He.
  match goal with |- context [ext (XCreateBooking ?d) ?w0] =>
    destruct (Hext d w0) as (e & w1 & Hx); rewrite Hx end.
  eexists; reflexivity.
Qed.

(** X16: a call already in the provider's shape is sent with [apiKey] set to
    the caller's key or, failing that, the configured one; the provider's
    answer becomes a 200, and its error goes to [handleError] with its own
    status. *)
Theorem createBookingV1_passthrough (ext : ext_call -> M jsval) (o : obj) (w : world) :
  passthrough o = true ->
  createBookingV1 ext parseInt_str end_after defaultDuration (JObj o) w =
  match ext (XCreateBooking
               (JObj (set o "apiKey" (js_or (get o "apiKey") (cal_apiKey (w_config w)))))) w with
  | (inl b, w') =>
      (inl (ok_response [("booking", b); ("message", JStr "Booking created successfully")]), w')
  | (inr e, w') => (inl (handleError e), w')
  end.
Proof.
  intros Hp.
  unfold createBookingV1, try_catch, bind, prop, ret, throw, get_config; cbn.
  unfold passthrough in Hp; rewrite Hp.
  destruct (ext _ w) as [[b|e] w']; reflexivity.
Qed.

(** X17: a voice-platform call of [rescheduleBooking], [cancelBooking] or
    [getBookingDetails] whose parameters lack a truthy [bookingId] answers
    200 with the error "Missing required parameters" and calls nothing. *)
Theorem handleFunctionCall_booking_missing_id (ext : ext_call -> M jsval) (o p : obj)
    (f : string) (w : world) :
  get o "function" = JStr f ->
  In f ["rescheduleBooking"; "cancelBooking"; "getBookingDetails"] ->
  get o "parameters" = JObj p -> truthy (get p "bookingId") = false ->
  handleFunctionCall JSON_parse provider (booking_ops ext parseInt_str end_after defaultDuration)
    (JObj o) w =
  (inl (mkResponse 200 [] (envelope (JStr f) ("error", JStr "Missing required parameters"))), w).
Proof.
  intros Hf Hin Hp Hb.
  unfold handleFunctionCall, try_catch, bind, prop, ret; cbn.
  rewrite Hf, Hp.
  destruct Hin as [<-|[<-|[<-|[]]]]; cbn;
    unfold rescheduleBooking, cancelBooking, getBookingDetails, destr, bind, ret, throw; cbn;
    rewrite Hb; reflexivity.
Qed.

Lemma prints_as_in_js_no_throw (v : jsval) : prints_as_in_js v = true -> template_throws v = false.
Proof. destruct v; cbn; congruence. Qed.

(** X18: a webhook whose [type] is none of [function], [function-call] and
    [tool] is acknowledged with 200 [{success: true}] and calls nothing. *)
Theorem handleVapiWebhook_ack (ext : ext_call -> M jsval) (o : obj) (w : world) :
  js_strict_eqb (get o "type") (JStr "function")
  || js_strict_eqb (get o "type") (JStr "function-call")
  || js_strict_eqb (get o "type") (JStr "tool") = false ->
  handleVapiWebhook JSON_parse provider ext parseInt_str end_after defaultDuration (JObj o) w =
  (inl (mkResponse 200 [] (JObj [("success", JBool true)])), w).
Proof.
  intros H; apply orb_false_iff in H as [H H3]; apply orb_false_iff in H as [H1 H2].
  unfold handleVapiWebhook, try_catch, bind, prop, ret; cbn.
  rewrite H1, H2, H3; cbn.
  destruct (js_strict_eqb (get o "type") (JStr "transcript")); [reflexivity|].
  destruct (_ || _); reflexivity.
Qed.

(** X19: a [tool] webhook for a tool other than [booking], named by a
    string, a boolean, [null] or [undefined], answers 400 with
    "Unknown tool: " and the tool's name, and calls nothing. *)
Theorem handleVapiWebhook_unknown_tool (ext : ext_call -> M jsval) (o : obj) (w : world) :
  get o "type" = JStr "tool" ->
  prints_as_in_js (oprop (get o "tool") "name") = true ->
  js_strict_eqb (oprop (get o "tool") "name") (JStr "booking") = false ->
  handleVapiWebhook JSON_parse provider ext parseInt_str end_after defaultDuration (JObj o) w =
  (inl (mkResponse 400 []
          (JObj [("success", JBool false);
                 ("error", JStr ("Unknown tool: " ++ js_to_string (oprop (get o "tool") "name"))%string)])),
   w).
Proof.
  intros Ht Hp Hn.
  unfold handleVapiWebhook, try_catch, bind, prop, ret; cbn.
  rewrite Ht; cbn.
  rewrite Hn, (prints_as_in_js_no_throw _ Hp); reflexivity.
Qed.

Lemma handleFunctionCall_obj_200 (oa : string -> jsval -> M response) (o : obj) (w : world) :
  exists pl w',
    handleFunctionCall JSON_parse provider oa (JObj o) w =
    (inl (mkResponse 200 []
            (envelope (js_or (get o "function") (oprop (get o "functionCall") "name")) pl)), w').
Proof.
  unfold handleFunctionCall, try_catch, bind at 1 2 3, prop at 1 2 3, ret at 1 2 3; cbn beta iota.
  unfold bind.
  match goal with |- context [dispatch_function ?a ?b ?c ?d ?w0] =>
    destruct (dispatch_function a b c d w0) as [[r|e] w'] end;
  unfold ret; eauto.
Qed.

(** X20: a [function] or [function-call] webhook always answers status 200
    with a [function_response] envelope: every error of the called
    operation is reported inside it, none reaches the webhook's 500. *)
Theorem handleVapiWebhook_function_200 (ext : ext_call -> M jsval) (o : obj) (w : world) :
  get o "type" = JStr "function" \/ get o "type" = JStr "function-call" ->
  exists name pl w',
    handleVapiWebhook JSON_parse provider ext parseInt_str end_after defaultDuration (JObj o) w =
    (inl (mkResponse 200 [] (envelope name pl)), w').
Proof.
  intros Ht.
  unfold handleVapiWebhook, try_catch at 1, bind at 1, prop at 1, ret at 1; cbn beta iota.
  assert (Hb : js_strict_eqb (get o "type") (JStr "function")
               || js_strict_eqb (get o "type") (JStr "function-call") = true)
    by (destruct Ht as [-> | ->]; reflexivity).
  rewrite Hb; unfold bind, prop, ret; cbn beta iota.
  match goal with |- context [handleFunctionCall ?a ?b ?c (JObj ?o') ?w0] =>
    destruct (handleFunctionCall_obj_200 c o' w0) as (pl & w' & Hh); rewrite Hh end.
  eauto.
Qed.

(** X23: a trial-started body missing a truthy [name], [email] or
    [phoneNumber] answers 400 "Missing required parameters" and places no
    call. *)
Theorem handleTrialStarted_missing_params (ext : ext_call -> M jsval) (aid : jsval) (o : obj)
    (w : world) :
  truthy (get o "name") && truthy (get o "email") && truthy (get o "phoneNumber") = false ->
  handleTrialStarted ext aid (JObj o) w =
  (inl (mkResponse 400 [] (JObj [("success", JBool false);
                                 ("error", JStr "Missing required parameters")])), w).
Proof.
  intros H.
  unfold handleTrialStarted, destr, bind, ret; cbn.
  rewrite H; reflexivity.
Qed.

(** X24: with no assistant configured, a complete trial-started body answers
    500 "No VAPI assistant ID configured" and places no call. *)
Theorem handleTrialStarted_no_assistant (ext : ext_call -> M jsval) (aid : jsval) (o : obj)
    (w : world) :
  truthy (get o "name") && truthy (get o "email") && truthy (get o "phoneNumber") = true ->
  truthy aid = false ->
  handleTrialStarted ext aid (JObj o) w =
  (inl (mkResponse 500 [] (JObj [("success", JBool false);
                                 ("error", JStr "No VAPI assistant ID configured")])), w).
Proof.
  intros H Ha.
  unfold handleTrialStarted, destr, bind, ret, try_catch, throw; cbn.
  rewrite H, Ha; reflexivity.
Qed.

(** X25: when the assistant id and the phone number pass the log line's
    template coercion and the SIP call succeeds, no regular call is placed;
    a falsy call object ends in a 500 "Failed to initiate call through any
    method". *)
Theorem handleTrialStarted_sip_answer (ext : ext_call -> M jsval) (aid c : jsval) (o : obj)
    (w w1 : world) :
  truthy (get o "name") && truthy (get o "email") && truthy (get o "phoneNumber") = true ->
  truthy aid = true ->
  template_throws aid = false -> template_throws (get o "phoneNumber") = false ->
  ext (XCreateSipCall aid
         (trial_call_config (get o "name") (get o "email") (get o "phoneNumber"))) w
  = (inl c, w1) ->
  handleTrialStarted ext aid (JObj o) w =
  (inl (if truthy c
        then ok_response [("callId", oprop c "id");
                          ("message", JStr "Call initiated successfully")]
        else mkResponse 500 [] (JObj [("success", JBool false);
                                      ("error", JStr "Failed to initiate call through any method")])),
   w1).
Proof.
  intros H Ha Ht1 Ht2 Hs.
  unfold handleTrialStarted, destr, bind, ret, try_catch, throw; cbn.
  rewrite H, Ha, Ht1, Ht2; cbn.
  unfold trial_call_config in Hs; rewrite Hs.
  destruct (truthy c); reflexivity.
Qed.

(** X26: when the assistant id and the phone number pass the log line's
    template coercion and the SIP call throws [e1], the regular call
    decides: its truthy answer gives the 200, a falsy answer reports [e1],
    and its own error [e2] is reported instead, each with
    [error.statusCode || 500]. *)
Theorem handleTrialStarted_fallback (ext : ext_call -> M jsval) (aid : jsval) (o : obj)
    (e1 : js_error) (w w1 : world) :
  truthy (get o "name") && truthy (get o "email") && truthy (get o "phoneNumber") = true ->
  truthy aid = true ->
  template_throws aid = false -> template_throws (get o "phoneNumber") = false ->
  ext (XCreateSipCall aid
         (trial_call_config (get o "name") (get o "email") (get o "phoneNumber"))) w
  = (inr e1, w1) ->
  handleTrialStarted ext aid (JObj o) w =
  match ext (XCreateCall aid
               (trial_call_config (get o "name") (get o "email") (get o "phoneNumber"))) w1 with
  | (inl c, w2) =>
      (inl (if truthy c
            then ok_response [("callId", oprop c "id");
                              ("message", JStr "Call initiated successfully")]
            else trial_failure e1), w2)
  | (inr e2, w2) => (inl (trial_failure e2), w2)
  end.
Proof.
  intros H Ha Ht1 Ht2 Hs.
  unfold handleTrialStarted, destr, bind, ret, try_catch, throw; cbn.
  rewrite H, Ha, Ht1, Ht2; cbn.
  unfold trial_call_config in Hs |- *; rewrite Hs.
  destruct (ext (XCreateCall _ _) w1) as [[c|e2] w2]; [destruct (truthy c)|]; reflexivity.
Qed.

(** X28: a phone number whose template coercion throws (an object with an
    own [toString]) stops [handleTrialStarted] at its log line, before
    either call method: the answer is a 500 with the coercion's
    [TypeError] message, and nothing is called. *)
Theorem handleTrialStarted_phone_coercion (ext : ext_call -> M jsval) (aid : jsval) (o : obj)
    (w : world) :
  truthy (get o "name") && truthy (get o "email") && truthy (get o "phoneNumber") = true ->
  truthy aid = true -> template_throws (get o "phoneNumber") = true ->
  handleTrialStarted ext aid (JObj o) w =
  (inl (mkResponse 500 [] (JObj [("success", JBool false);
                                 ("error", JStr "Cannot convert object to primitive value")])), w).
Proof.
  intros H Ha Ht.
  unfold handleTrialStarted, destr, bind, ret, try_catch, throw; cbn.
  rewrite H, Ha, Ht, orb_true_r; reflexivity.
Qed.

(** X21: a [tool] webhook for [booking] without truthy [tool.parameters]
    runs [createBooking] on [{}], which answers 400 "Name is required". *)
Theorem handleVapiWebhook_booking_tool_without_parameters (ext : ext_call -> M jsval)
    (o : obj) (w : world) :
  get o "type" = JStr "tool" ->
  js_strict_eqb (oprop (get o "tool") "name") (JStr "booking") = true ->
  truthy (oprop (get o "tool") "parameters") = false ->
  handleVapiWebhook JSON_parse provider ext parseInt_str end_after defaultDuration (JObj o) w =
  (inl (handleError (ValidationError "Name is required" "name")), w).
Proof.
  intros Ht Hn Hp.
  unfold handleVapiWebhook, try_catch at 1, bind at 1, prop at 1, ret at 1; cbn beta iota.
  rewrite Ht; cbn -[createBookingV1].
  rewrite Hn; unfold js_or; rewrite Hp.
  reflexivity.
Qed.

(** X22: without a configured assistant, [initializeAssistant] creates one
    and answers with its [id]; an assistant answered as [undefined] throws
    "Cannot read properties of undefined (reading 'id')", one answered as
    [null] throws a [TypeError]. *)
Theorem initializeAssistant_creates (ext : ext_call -> M jsval)
    (apiKey cfg a params : jsval) (aid : jsval) (w w1 : world) :
  truthy aid = false -> ext (XCreateAssistant cfg) w = (inl a, w1) ->
  match a with
  | JUndefined => initializeAssistant ext aid apiKey cfg params w = (inr (TypeError "id"), w1)
  | JNull =>
      exists e, initializeAssistant ext aid apiKey cfg params w = (inr e, w1) /\
                err_name e = "TypeError"
  | _ =>
      initializeAssistant ext aid apiKey cfg params w =
      (inl (ok_response
              [("assistantId", oprop a "id"); ("apiKey", apiKey);
               ("message", JStr "VAPI assistant ready for web integration");
               ("instructions", JStr "Use this assistantId and apiKey with the VAPI Web SDK to integrate voice interface on your website.")]), w1)
  end.
Proof.
  intros Ha Hx.
  unfold initializeAssistant, bind, ret; rewrite Ha, Hx.
  destruct a; try reflexivity.
  eexists; split; reflexivity.
Qed.

Lemma only_ret {A} (P : A -> Prop) (a : A) : P a -> yields_only P (ret a).
Proof. intros Ha w a' w' E; injection E as <- _; exact Ha. Qed.

Lemma only_throw {A} (P : A -> Prop) (e : js_error) : yields_only P (throw e).
Proof. intros w a w' E; discriminate E. Qed.

Lemma only_bind {A B} (P : B -> Prop) (m : M A) (f : A -> M B) :
  (forall x, yields_only P (f x)) -> yields_only P (bind m f).
Proof.
  intros Hf w b w' E; unfold bind in E.
  destruct (m w) as [[x|e] w1]; [exact (Hf x w1 b w' E) | discriminate E].
Qed.

Lemma only_try_catch {A} (P : A -> Prop) (m : M A) (h : js_error -> M A) :
  yields_only P m -> (forall e, yields_only P (h e)) -> yields_only P (try_catch m h).
Proof.
  intros Hm Hh w a w' E; unfold try_catch in E.
  destruct (m w) as [[x|e] w1] eqn:Em.
  - injection E as -> ->; exact (Hm w a w' Em).
  - exact (Hh e w1 a w' E).
Qed.

Lemma handleError_no_alternatives (e : js_error) : no_alternatives (handleError e).
Proof.
  destruct e as [n m s f r src d]; unfold no_alternatives, handleError; cbn.
  destruct f as [f|]; [destruct (str_truthy f)|];
  destruct r as [r|]; try destruct (str_truthy r); reflexivity.
Qed.

Ltac only_step :=
  first [ apply only_bind; intro
        | apply only_throw
        | apply only_try_catch; [|intro]
        | apply only_ret; reflexivity
        | match goal with |- yields_only _ (if ?b then _ else _) => destruct b end ].

(** X27: [createBooking] never throws, and none of its answers carries
    [alternativeSlots]: the conflict branch of [handleFunctionCall] cannot
    fire for it. *)
Theorem createBookingV1_no_alternatives (ext : ext_call -> M jsval) (params : jsval)
    (w : world) :
  exists r w',
    createBookingV1 ext parseInt_str end_after defaultDuration params w = (inl r, w') /\
    no_alternatives r.
Proof.
  unfold createBookingV1, try_catch at 1; cbv zeta.
  match goal with |- context [match ?m w with _ => _ end] =>
    assert (Hm : yields_only no_alternatives m) by (repeat only_step);
    destruct (m w) as [[r|e] w'] eqn:E end.
  - exists r, w'; split; [reflexivity | exact (Hm w r w' E)].
  - exists (handleError e), w'; split; [reflexivity | apply handleError_no_alternatives].
Qed.

End OpsProofs.

Lemma createBookingV1_first_missing_field_witness :
  passthrough [("name", JStr "Jane Doe"); ("startTime", JStr "2025-07-01T10:00:00Z")] = false /\
  first_missing [("name", JStr "Jane Doe"); ("startTime", JStr "2025-07-01T10:00:00Z")]
  = Some ("email", "Email is required") /\
  createBookingV1 Inputs.ext_ok Inputs.parse_int_str Inputs.end_30 (JNum 30)
    (JObj [("name", JStr "Jane Doe"); ("startTime", JStr "2025-07-01T10:00:00Z")])
    Inputs.tenant_a_world =
  (inl (handleError (ValidationError "Email is required" "email")), Inputs.tenant_a_world).
Proof.
  refine (conj eq_refl (conj eq_refl _)).
  apply createBookingV1_first_missing_field; reflexivity.
Defined.

Lemma createBookingV1_provider_error_masked_witness :
  passthrough Inputs.legacy_booking_body = false /\
  first_missing Inputs.legacy_booking_body = None /\
  truthy (get Inputs.legacy_booking_body "endTime") = true /\
  (forall d w0, exists e w1, Inputs.ext_conflict (XCreateBooking d) w0 = (inr e, w1)) /\
  exists w',
    createBookingV1 Inputs.ext_conflict Inputs.parse_int_str Inputs.end_30 (JNum 30)
      (JObj Inputs.legacy_booking_body) Inputs.tenant_a_world =
    (inl (mkResponse 500 [("Content-Type", "application/json");
                          ("Access-Control-Allow-Origin", "*")]
            (JObj [("success", JBool false); ("error", JStr "ApiError is not defined");
                   ("type", JStr "ReferenceError")])), w').
Proof.
  assert (Hx : forall d w0, exists e w1, Inputs.ext_conflict (XCreateBooking d) w0 = (inr e, w1))
    by (intros d w0; exists Inputs.slot_taken, w0; reflexivity).
  refine (conj eq_refl (conj eq_refl (conj eq_refl (conj Hx _)))).
  apply createBookingV1_provider_error_masked; [reflexivity | reflexivity | reflexivity | exact Hx].
Defined.

Lemma createBookingV1_passthrough_witness :
  passthrough [("eventTypeId", JNum 2077162); ("start", JStr "2025-07-01T10:00:00Z");
               ("responses", JObj [("name", JStr "Jane Doe")]); ("timeZone", JStr "UTC")]
  = true /\
  createBookingV1 Inputs.ext_conflict Inputs.parse_int_str Inputs.end_30 (JNum 30)
    (JObj [("eventTypeId", JNum 2077162); ("start", JStr "2025-07-01T10:00:00Z");
           ("responses", JObj [("name", JStr "Jane Doe")]); ("timeZone", JStr "UTC")])
    Inputs.tenant_a_world =
  (inl (handleError Inputs.slot_taken), Inputs.tenant_a_world).
Proof.
  split; [reflexivity|].
  etransitivity; [apply createBookingV1_passthrough; reflexivity | reflexivity].
Defined.

Lemma handleFunctionCall_booking_missing_id_witness :
  get [("function", JStr "cancelBooking"); ("parameters", JObj [("reason", JStr "No longer needed")])]
    "function" = JStr "cancelBooking" /\
  In "cancelBooking" ["rescheduleBooking"; "cancelBooking"; "getBookingDetails"] /\
  get [("function", JStr "cancelBooking"); ("parameters", JObj [("reason", JStr "No longer needed")])]
    "parameters" = JObj [("reason", JStr "No longer needed")] /\
  truthy (get [("reason", JStr "No longer needed")] "bookingId") = false /\
  handleFunctionCall Inputs.no_json Inputs.provider_empty
    (booking_ops Inputs.ext_ok Inputs.parse_int_str Inputs.end_30 (JNum 30))
    (JObj [("function", JStr "cancelBooking");
           ("parameters", JObj [("reason", JStr "No longer needed")])]) Inputs.tenant_a_world =
  (inl (mkResponse 200 [] (envelope (JStr "cancelBooking")
                             ("error", JStr "Missing required parameters"))),
   Inputs.tenant_a_world).
Proof.
  refine (conj eq_refl (conj (or_intror (or_introl eq_refl)) (conj eq_refl (conj eq_refl _)))).
  apply handleFunctionCall_booking_missing_id with (p := [("reason", JStr "No longer needed")]);
    [reflexivity | right; left; reflexivity | reflexivity | reflexivity].
Defined.

Lemma handleVapiWebhook_ack_witness :
  js_strict_eqb (get [("type", JStr "transcript")] "type") (JStr "function")
  || js_strict_eqb (get [("type", JStr "transcript")] "type") (JStr "function-call")
  || js_strict_eqb (get [("type", JStr "transcript")] "type") (JStr "tool") = false /\
  handleVapiWebhook Inputs.no_json Inputs.provider_empty Inputs.ext_ok Inputs.parse_int_str
    Inputs.end_30 (JNum 30) (JObj [("type", JStr "transcript")]) Inputs.tenant_a_world =
  (inl (mkResponse 200 [] (JObj [("success", JBool true)])), Inputs.tenant_a_world).
Proof.
  split; [reflexivity|].
  apply handleVapiWebhook_ack; reflexivity.
Defined.

Lemma handleVapiWebhook_unknown_tool_witness :
  get [("type", JStr "tool"); ("tool", JObj [("name", JStr "weather")])] "type" = JStr "tool" /\
  prints_as_in_js (oprop (get [("type", JStr "tool"); ("tool", JObj [("name", JStr "weather")])]
                              "tool") "name") = true /\
  js_strict_eqb (oprop (get [("type", JStr "tool"); ("tool", JObj [("name", JStr "weather")])]
                            "tool") "name") (JStr "booking") = false /\
  handleVapiWebhook Inputs.no_json Inputs.provider_empty Inputs.ext_ok Inputs.parse_int_str
    Inputs.end_30 (JNum 30) (JObj [("type", JStr "tool"); ("tool", JObj [("name", JStr "weather")])])
    Inputs.tenant_a_world =
  (inl (mkResponse 400 [] (JObj [("success", JBool false);
                                 ("error", JStr "Unknown tool: weather")])),
   Inputs.tenant_a_world).
Proof.
  refine (conj eq_refl (conj eq_refl (conj eq_refl _))).
  etransitivity; [apply handleVapiWebhook_unknown_tool; reflexivity | reflexivity].
Defined.

Lemma handleVapiWebhook_function_200_witness :
  (get [("type", JStr "function-call");
        ("functionCall", JObj [("name", JStr "cancelBooking"); ("arguments", JStr "{}")])] "type"
   = JStr "function" \/
   get [("type", JStr "function-call");
        ("functionCall", JObj [("name", JStr "cancelBooking"); ("arguments", JStr "{}")])] "type"
   = JStr "function-call") /\
  exists name pl w',
    handleVapiWebhook Inputs.no_json Inputs.provider_empty Inputs.ext_ok Inputs.parse_int_str
      Inputs.end_30 (JNum 30)
      (JObj [("type", JStr "function-call");
             ("functionCall", JObj [("name", JStr "cancelBooking"); ("arguments", JStr "{}")])])
      Inputs.tenant_a_world =
    (inl (mkResponse 200 [] (envelope name pl)), w').
Proof.
  split; [right; reflexivity|].
  apply handleVapiWebhook_function_200; right; reflexivity.
Defined.

Lemma handleVapiWebhook_booking_tool_without_parameters_witness :
  get [("type", JStr "tool"); ("tool", JObj [("name", JStr "booking")])] "type" = JStr "tool" /\
  js_strict_eqb (oprop (get [("type", JStr "tool"); ("tool", JObj [("name", JStr "booking")])]
                            "tool") "name") (JStr "booking") = true /\
  truthy (oprop (get [("type", JStr "tool"); ("tool", JObj [("name", JStr "booking")])] "tool")
                "parameters") = false /\
  handleVapiWebhook Inputs.no_json Inputs.provider_empty Inputs.ext_ok Inputs.parse_int_str
    Inputs.end_30 (JNum 30) (JObj [("type", JStr "tool"); ("tool", JObj [("name", JStr "booking")])])
    Inputs.tenant_a_world =
  (inl (handleError (ValidationError "Name is required" "name")), Inputs.tenant_a_world).
Proof.
  refine (conj eq_refl (conj eq_refl (conj eq_refl _))).
  apply handleVapiWebhook_booking_tool_without_parameters; reflexivity.
Defined.

Lemma initializeAssistant_creates_witness :
  truthy (JStr EmptyString) = false /\
  Inputs.ext_ok (XCreateAssistant (JObj [])) Inputs.tenant_a_world
  = (inl (JObj [("id", JStr "id-1")]), Inputs.tenant_a_world) /\
  initializeAssistant Inputs.ext_ok (JStr EmptyString) (JStr "vapi-public-key") (JObj [])
    (JObj []) Inputs.tenant_a_world =
  (inl (ok_response
          [("assistantId", JStr "id-1"); ("apiKey", JStr "vapi-public-key");
           ("message", JStr "VAPI assistant ready for web integration");
           ("instructions", JStr "Use this assistantId and apiKey with the VAPI Web SDK to integrate voice interface on your website.")]),
   Inputs.tenant_a_world).
Proof.
  refine (conj eq_refl (conj eq_refl _)).
  exact (initializeAssistant_creates Inputs.ext_ok (JStr "vapi-public-key") (JObj [])
           (JObj [("id", JStr "id-1")]) (JObj []) (JStr EmptyString)
           Inputs.tenant_a_world Inputs.tenant_a_world eq_refl eq_refl).
Defined.

Lemma handleTrialStarted_missing_params_witness :
  truthy (get [("name", JStr "Jane Doe"); ("email", JStr "jane@example.com")] "name")
  && truthy (get [("name", JStr "Jane Doe"); ("email", JStr "jane@example.com")] "email")
  && truthy (get [("name", JStr "Jane Doe"); ("email", JStr "jane@example.com")] "phoneNumber")
  = false /\
  handleTrialStarted Inputs.ext_ok (JStr "asst-1")
    (JObj [("name", JStr "Jane Doe"); ("email", JStr "jane@example.com")]) Inputs.tenant_a_world =
  (inl (mkResponse 400 [] (JObj [("success", JBool false);
                                 ("error", JStr "Missing required parameters")])),
   Inputs.tenant_a_world).
Proof.
  split; [reflexivity|].
  apply handleTrialStarted_missing_params; reflexivity.
Defined.

Lemma handleTrialStarted_no_assistant_witness :
  truthy (get Inputs.trial_body "name") && truthy (get Inputs.trial_body "email")
  && truthy (get Inputs.trial_body "phoneNumber") = true /\
  truthy JUndefined = false /\
  handleTrialStarted Inputs.ext_ok JUndefined (JObj Inputs.trial_body) Inputs.tenant_a_world =
  (inl (mkResponse 500 [] (JObj [("success", JBool false);
                                 ("error", JStr "No VAPI assistant ID configured")])),
   Inputs.tenant_a_world).
Proof.
  refine (conj eq_refl (conj eq_refl _)).
  apply handleTrialStarted_no_assistant; reflexivity.
Defined.

Lemma handleTrialStarted_sip_answer_witness :
  truthy (get Inputs.trial_body "name") && truthy (get Inputs.trial_body "email")
  && truthy (get Inputs.trial_body "phoneNumber") = true /\
  truthy (JStr "asst-1") = true /\
  template_throws (JStr "asst-1") = false /\ template_throws (get Inputs.trial_body "phoneNumber") = false /\
  Inputs.ext_ok (XCreateSipCall (JStr "asst-1")
                   (trial_call_config (get Inputs.trial_body "name") (get Inputs.trial_body "email")
                      (get Inputs.trial_body "phoneNumber"))) Inputs.tenant_a_world
  = (inl (JObj [("id", JStr "id-1")]), Inputs.tenant_a_world) /\
  handleTrialStarted Inputs.ext_ok (JStr "asst-1") (JObj Inputs.trial_body) Inputs.tenant_a_world =
  (inl (ok_response [("callId", JStr "id-1"); ("message", JStr "Call initiated successfully")]),
   Inputs.tenant_a_world).
Proof.
  refine (conj eq_refl (conj eq_refl (conj eq_refl (conj eq_refl (conj eq_refl _))))).
  etransitivity; [apply handleTrialStarted_sip_answer with (c := JObj [("id", JStr "id-1")]);
                  reflexivity | reflexivity].
Defined.

Lemma handleTrialStarted_fallback_witness :
  truthy (get Inputs.trial_body "name") && truthy (get Inputs.trial_body "email")
  && truthy (get Inputs.trial_body "phoneNumber") = true /\
  truthy (JStr "asst-1") = true /\
  template_throws (JStr "asst-1") = false /\ template_throws (get Inputs.trial_body "phoneNumber") = false /\
  Inputs.ext_sip_down (XCreateSipCall (JStr "asst-1")
                   (trial_call_config (get Inputs.trial_body "name") (get Inputs.trial_body "email")
                      (get Inputs.trial_body "phoneNumber"))) Inputs.tenant_a_world
  = (inr Inputs.sip_down, Inputs.tenant_a_world) /\
  handleTrialStarted Inputs.ext_sip_down (JStr "asst-1") (JObj Inputs.trial_body)
    Inputs.tenant_a_world =
  (inl (ok_response [("callId", JStr "id-2"); ("message", JStr "Call initiated successfully")]),
   Inputs.tenant_a_world).
Proof.
  refine (conj eq_refl (conj eq_refl (conj eq_refl (conj eq_refl (conj eq_refl _))))).
  etransitivity; [apply handleTrialStarted_fallback with (e1 := Inputs.sip_down)
                    (w1 := Inputs.tenant_a_world); reflexivity | reflexivity].
Defined.

Lemma handleTrialStarted_phone_coercion_witness :
  truthy (get Inputs.trial_body_object_phone "name")
  && truthy (get Inputs.trial_body_object_phone "email")
  && truthy (get Inputs.trial_body_object_phone "phoneNumber") = true /\
  truthy (JStr "asst-1") = true /\
  template_throws (get Inputs.trial_body_object_phone "phoneNumber") = true /\
  handleTrialStarted Inputs.ext_ok (JStr "asst-1") (JObj Inputs.trial_body_object_phone)
    Inputs.tenant_a_world =
  (inl (mkResponse 500 [] (JObj [("success", JBool false);
                                 ("error", JStr "Cannot convert object to primitive value")])),
   Inputs.tenant_a_world).
Proof.
  refine (conj eq_refl (conj eq_refl (conj eq_refl _))).
  apply handleTrialStarted_phone_coercion; reflexivity.
Defined.

End OpsFacts.
